(** * immobiscraper: the extraction engine and the crawl pipeline

    A shallow embedding of [immobiscraper.py] (class [Immobiliare]) and the
    properties of its field extraction, URL discovery and aggregation.

    Python strings are sequences of Unicode code points, so a text is a list
    of code points; the regular expressions of the source are kept as data
    and run by a backtracking matcher with Python's priorities (leftmost
    start, greedy quantifiers, first alternative that lets the rest match). *)

From Stdlib Require Import Ascii String DecimalString DecimalNat.
From Stdlib Require Import SpecFloat.
From Stdlib Require Import List Bool Arith ZArith NArith Lia Permutation.
Import ListNotations.

(** ** Texts *)

Module Text.

Definition char := N.
Definition text := list char.

Definition char_eqb (a b : char) : bool := N.eqb a b.

Definition text_eq_dec : forall a b : text, {a = b} + {a <> b} :=
  list_eq_dec N.eq_dec.

(** A literal of the source whose characters are all ASCII. *)
Definition lit (s : string) : text :=
  map N_of_ascii (list_ascii_of_string s).

(** The two characters of the source's literals that are not ASCII. *)
Definition euro : char := 8364%N.      (* U+20AC *)
Definition e_grave : char := 232%N.    (* U+00E8 *)

Fixpoint starts_with (p s : text) : bool :=
  match p, s with
  | [], _ => true
  | _ :: _, [] => false
  | a :: p', b :: s' => char_eqb a b && starts_with p' s'
  end.

(** [needle in hay] on Python strings. *)
Fixpoint contains (needle hay : text) : bool :=
  starts_with needle hay ||
  match hay with
  | [] => false
  | _ :: hay' => contains needle hay'
  end.

(** [c in chars] for a one-character string [c]. *)
Definition char_in (c : char) (chars : text) : bool :=
  existsb (char_eqb c) chars.

(** [s.replace(".", "")]. *)
Definition remove_dots (s : text) : text :=
  filter (fun c => negb (char_eqb c 46%N)) s.

(** Unicode decimal digits ([Py_UNICODE_ISDECIMAL], the class of [\d] and
    the digits [int()] accepts): every run of ten is contiguous and starts
    at its zero, listed here for the Unicode 14 tables. *)
Definition decimal_zeros : list N :=
  [48; 1632; 1776; 1984; 2406; 2534; 2662; 2790; 2918; 3046; 3174; 3302;
   3430; 3558; 3664; 3792; 3872; 4160; 4240; 6112; 6160; 6470; 6608; 6784;
   6800; 6992; 7088; 7232; 7248; 42528; 43216; 43264; 43472; 43504; 43600;
   44016; 65296; 66720; 68912; 69734; 69872; 69942; 70096; 70384; 70736;
   70864; 71248; 71360; 71472; 71904; 72016; 72784; 73040; 73120; 92768;
   92864; 93008; 120782; 120792; 120802; 120812; 120822; 123200; 123632;
   125264; 130032]%N.

Definition in_run (c z : N) : bool := (N.leb z c && N.ltb c (z + 10))%N.

Definition is_digit (c : char) : bool := existsb (in_run c) decimal_zeros.

Definition digit_value (c : char) : Z :=
  match find (in_run c) decimal_zeros with
  | Some z => Z.of_N (c - z)
  | None => 0
  end.

(** Unicode whitespace ([Py_UNICODE_ISSPACE], the class of [\s] and of
    [str.split()]). *)
Definition is_space (c : char) : bool :=
  ((9 <=? c) && (c <=? 13) || (28 <=? c) && (c <=? 32)
   || (c =? 133) || (c =? 160) || (c =? 5760)
   || (8192 <=? c) && (c <=? 8202)
   || (c =? 8232) || (c =? 8233) || (c =? 8239) || (c =? 8287)
   || (c =? 12288))%N.

(** [str.lower()], character by character.  Basic Latin and Latin-1 are
    mapped as Python maps them, and so is every character beyond Latin-1
    whose lowercase form contains a Latin-1 character (U+0130, U+0178,
    U+1E9E, U+212A, U+212B).  The other cased letters beyond Latin-1 are
    left as they are: both they and their lowercase forms are single
    letters outside Latin-1, which no class or literal of the patterns
    below tells apart. *)
Definition lower_char (c : char) : text :=
  (if (65 <=? c) && (c <=? 90) then [c + 32]
   else if (192 <=? c) && (c <=? 222) && negb (c =? 215) then [c + 32]
   else if c =? 304 then [105; 775]
   else if c =? 376 then [255]
   else if c =? 7838 then [223]
   else if c =? 8490 then [107]
   else if c =? 8491 then [229]
   else [c])%N.

Definition lower (s : text) : text := flat_map lower_char s.

(** [str.upper()] on Basic Latin and Latin-1 (U+00B5, U+00DF and U+00FF
    leave Latin-1 or grow); other characters are left as they are. *)
Definition upper_char (c : char) : text :=
  (if (97 <=? c) && (c <=? 122) then [c - 32]
   else if (224 <=? c) && (c <=? 254) && negb (c =? 247) then [c - 32]
   else if c =? 181 then [924]
   else if c =? 223 then [83; 83]
   else if c =? 255 then [376]
   else [c])%N.

Definition upper (s : text) : text := flat_map upper_char s.

(** [str(i)] for a non-negative integer. *)
Definition of_nat (n : nat) : text :=
  lit (NilEmpty.string_of_uint (Nat.to_uint n)).

End Text.
Import Text.

(** ** Regular expressions

    Every pattern of the source is a sequence of single-character classes,
    each with a greedy quantifier, with at most one capturing group around
    a contiguous part of the sequence and possibly a final [$]. *)

Module Re.

Inductive cls :=
| Lit (c : char)      (* the character itself *)
| Digit               (* \d *)
| NonDigit            (* \D *)
| NonSpace            (* \S *)
| AnyChar.            (* .  (no DOTALL: anything but a newline) *)

Definition in_cls (k : cls) (c : char) : bool :=
  match k with
  | Lit a => char_eqb a c
  | Digit => is_digit c
  | NonDigit => negb (is_digit c)
  | NonSpace => negb (is_space c)
  | AnyChar => negb (char_eqb c 10%N)
  end.

(** [Q k lo hi]: the class [k] repeated [lo] to [hi] times ([None]: no
    upper bound), greedy.  [Dollar]: the end of the string, or just before
    a newline that ends it. *)
Inductive item :=
| Q (k : cls) (lo : nat) (hi : option nat)
| Dollar.

Definition one (k : cls) : item := Q k 1 (Some 1).
Definition plus (k : cls) : item := Q k 1 None.
Definition rng (k : cls) (lo hi : nat) : item := Q k lo (Some hi).
Definition lits (s : text) : list item := map (fun c => one (Lit c)) s.

(** A pattern: the items before the group, the items of group 1, the
    items after it. *)
Record pattern := mkPattern {
  pre : list item;
  grp : list item;
  post : list item
}.

Definition items (p : pattern) : list item := pre p ++ grp p ++ post p.

Definition hi_allows (hi : option nat) : bool :=
  match hi with Some 0 => false | _ => true end.

Definition hi_pred (hi : option nat) : option nat :=
  match hi with Some n => Some (Nat.pred n) | None => None end.

(** The quantifier loop: take one more character when the class and the
    upper bound allow it and the rest of the pattern can then match;
    otherwise stop here, if the lower bound is met.  The result is the
    piece this item matched and what the continuation returns. *)
Fixpoint rep {A : Type} (k : cls) (lo : nat) (hi : option nat)
    (cont : text -> option A) (s : text) {struct s} : option (text * A) :=
  let stop :=
    match lo with
    | O => option_map (fun r => ([], r)) (cont s)
    | S _ => None
    end in
  match s with
  | [] => stop
  | c :: s' =>
      if hi_allows hi && in_cls k c then
        match rep k (Nat.pred lo) (hi_pred hi) cont s' with
        | Some (piece, r) => Some (c :: piece, r)
        | None => stop
        end
      else stop
  end.

Definition at_end (s : text) : bool :=
  match s with
  | [] => true
  | [c] => char_eqb c 10%N
  | _ => false
  end.

(** Match the items at the start of [s]: the pieces matched, one per
    item, in order. *)
Fixpoint match_here (p : list item) : text -> option (list text) :=
  match p with
  | [] => fun _ => Some []
  | Q k lo hi :: p' => fun s =>
      option_map (fun '(piece, r) => piece :: r)
                 (rep k lo hi (match_here p') s)
  | Dollar :: p' => fun s =>
      if at_end s then option_map (cons []) (match_here p' s) else None
  end.

(** [re.search]: the match at the leftmost start that has one. *)
Fixpoint search_items (p : list item) (s : text) : option (list text) :=
  match match_here p s with
  | Some r => Some r
  | None =>
      match s with
      | [] => None
      | _ :: s' => search_items p s'
      end
  end.

(** [match.group(1)] of [re.search(p, s)], [None] when there is no match. *)
Definition search (p : pattern) (s : text) : option text :=
  option_map
    (fun pieces =>
       concat (firstn (length (grp p)) (skipn (length (pre p)) pieces)))
    (search_items (items p) s).

(** Truth value of [re.search(p, s)]. *)
Definition matches (p : pattern) (s : text) : bool :=
  match search_items (items p) s with Some _ => true | None => false end.

End Re.
Import Re.

(** ** Python values, exceptions and the arithmetic the program uses *)

Module Py.

Inductive exn :=
| TypeError
| ValueError
| OverflowError
| ZeroDivisionError
| RequestException.   (* what [requests.get] raises, a timeout apart *)

Inductive result (A : Type) :=
| Ok (a : A)
| Raise (e : exn).
Arguments Ok {A} a.
Arguments Raise {A} e.

Definition bind_r {A B} (r : result A) (f : A -> result B) : result B :=
  match r with
  | Ok a => f a
  | Raise e => Raise e
  end.

(** Python floats are IEEE 754 binary64. *)
Definition float := spec_float.
Definition prec : Z := 53.
Definition emax : Z := 1024.
Definition nan : float := S754_nan.

Inductive value :=
| PyNone
| PyInt (z : Z)
| PyFloat (f : float)
| PyStr (s : text).

(** Base-10 value of a string of decimal digits. *)
Definition int_of_digits (s : text) : Z :=
  fold_left (fun acc c => 10 * acc + digit_value c)%Z s 0%Z.

(** The most digits [int] reads from a string:
    [sys.int_info.default_max_str_digits] of the interpreters that limit
    the conversion (3.11 and later, and the later releases of 3.7 to
    3.10), which this program never changes.  Leading zeros count. *)
Definition max_str_digits : N := 4300.

Definition within_limit (s : text) : bool :=
  (N.of_nat (length s) <=? max_str_digits)%N.

(** [int(s)] for a string.  The strings this program passes to [int] are
    groups of [\d] characters (with the dots removed); a string with any
    other character, or an empty one, raises [ValueError] here (Python
    also accepts a sign, surrounding blanks and underscores, which never
    occur in those groups), and so does a string of more than
    [max_str_digits] digits.  Integers are unbounded, as in Python. *)
Definition int_of_text (s : text) : result Z :=
  match s with
  | [] => Raise ValueError
  | _ :: _ => if forallb is_digit s && within_limit s
              then Ok (int_of_digits s)
              else Raise ValueError
  end.

(** [int(x)] for a float: truncation toward zero. *)
Definition int_of_float (f : float) : result Z :=
  match f with
  | S754_zero _ => Ok 0%Z
  | S754_infinity _ => Raise OverflowError
  | S754_nan => Raise ValueError
  | S754_finite s m e =>
      let a := match e with
               | Zneg p => Z.shiftr (Zpos m) (Zpos p)
               | _ => Z.shiftl (Zpos m) e
               end in
      Ok (if s then Z.opp a else a)
  end.

(** [int(x)]. *)
Definition int (x : value) : result Z :=
  match x with
  | PyNone => Raise TypeError
  | PyInt z => Ok z
  | PyFloat f => int_of_float f
  | PyStr s => int_of_text s
  end.

(** The binary64 number nearest to [a / b] (ties to even) with sign [s],
    for positive [a] and [b] of any size; an infinity when it is out of
    range. *)
Definition nearest_quotient (s : bool) (a b : Z) : float :=
  let '(q, e, l) := SFdiv_core_binary prec emax a 0 b 0 in
  binary_round_aux prec emax s q e l.

(** [a / b] for integers: the correctly rounded quotient. *)
Definition truediv (a b : Z) : result float :=
  let negate := xorb (a <? 0)%Z (b <? 0)%Z in
  if (b =? 0)%Z then Raise ZeroDivisionError
  else if (a =? 0)%Z then Ok (S754_zero negate)
  else match nearest_quotient negate (Z.abs a) (Z.abs b) with
       | S754_infinity _ => Raise OverflowError
       | f => Ok f
       end.

(** Nearest integer to [n / d], ties to even, for [0 <= n] and [0 < d]. *)
Definition div_half_even (n d : Z) : Z :=
  let q := (n / d)%Z in
  let r := (n mod d)%Z in
  match (2 * r ?= d)%Z with
  | Lt => q
  | Gt => (q + 1)%Z
  | Eq => if Z.even q then q else (q + 1)%Z
  end.

(** [round(x, 1)] for a float: the exact value of [x] is rounded to one
    decimal, ties to even, and the decimal is read back as the nearest
    float. *)
Definition round1 (x : float) : result float :=
  match x with
  | S754_finite s m e =>
      let tenths :=
        match e with
        | Zneg p => div_half_even (10 * Zpos m) (Z.shiftl 1 (Zpos p))
        | _ => Z.shiftl (10 * Zpos m) e
        end in
      if (tenths =? 0)%Z then Ok (S754_zero s)
      else match nearest_quotient s tenths 10 with
           | S754_infinity _ => Raise OverflowError
           | f => Ok f
           end
  | _ => Ok x
  end.

(** The float equal to an integer that has one (used to write floats). *)
Definition float_of_Z (z : Z) : float := binary_normalize prec emax z 0 false.

End Py.
Import Py.

(** ** The crawler's data *)

(** The attributes [__init__] stores on the object, typed by its
    annotations. *)
Record Immobiliare := mkImmobiliare {
  url : text;
  verbose : bool;
  min_house_cost : Z;
  browse_all_pages : bool;
  wait : N;                       (* milliseconds *)
  area_not_found : Z;
  price_not_found : float;
  floor_not_found : Z;
  car_not_found : Z;
  energy_not_found : text;
  invalid_price_per_area : Z
}.

(** [Immobiliare(url)] with every keyword at its default. *)
Definition default_config (u : text) : Immobiliare :=
  {| url := u; verbose := true; min_house_cost := 100;
     browse_all_pages := true; wait := 100%N;
     area_not_found := 0; price_not_found := nan; floor_not_found := 0;
     car_not_found := 0; energy_not_found := lit "n/a";
     invalid_price_per_area := 0 |}.

(** The named tuple [House]. *)
Module House.
Record t := mk {
  cost : value;
  price_per_area : value;
  floor : value;
  area : value;
  ultimo : bool;
  url : text;
  energy : value;
  posto_auto : value
}.
End House.

(** The messages handed to [_say] (that is, to [logging.info]; whether the
    root logger prints them depends on the level [verbose] selected), and
    the line [find_all_houses] prints. *)
Inductive log_msg :=
| TimeoutReaching (u : text)        (* Timeout while trying to reach {url} *)
| TooLowPrice (c : Z) (u : text)    (* Too low house price: {int(cost)} for {sub_url} *)
| PriceOnRequest (u : text)         (* Price available upon request for {sub_url} *)
| CantGetPrice (u : text)           (* Can't get price for {sub_url} *)
| EnergyPending (u : text)          (* Energy efficiency still pending for {sub_url} *)
| CantGetEnergy (u : text)          (* Can't get energy efficiency from {sub_url} *)
| CarOnRequest (u : text)           (* Car spot/box available upon request for {sub_url} *)
| ProcessingPage (i : nat)          (* Processing page {i} *)
| UrlsStored                        (* All retrieved URLs stored in attribute 'urls_' *)
| FoundHouses (n : nat)             (* Found {len(urls_)} houses matching criteria. *)
| ResultsStored                     (* Results stored in attribute 'df_' *)
| PrintedCount (n : nat).           (* print: Numero di case trovate: {n} *)

(** ** The patterns of the source *)

Definition dot : item := one (Lit 46%N).

Definition cost_patterns : list pattern :=
  [ mkPattern (lits (euro :: lit " "))
              [plus Digit; dot; plus Digit; dot; plus Digit] [];
    mkPattern (lits (euro :: lit " "))
              [plus Digit; dot; plus Digit] [] ].

Definition floor_patterns : list pattern :=
  [ mkPattern (lits (lit "piano ")) [rng Digit 1 2] [];
    mkPattern [] [rng Digit 1 2] (lits (lit " piano"));
    mkPattern [] [rng Digit 1 2] (lits (lit " piani")) ].

Definition area_pattern : pattern :=
  mkPattern (lits (lit "superficie ")) [rng Digit 1 4] (lits (lit " m")).

Definition energy_patterns : list pattern :=
  [ mkPattern (lits (lit "energetica ")) [rng NonDigit 1 2] (lits (lit " "));
    mkPattern (lits (lit "energetica")) [rng NonSpace 1 2] [] ].

Definition car_patterns : list pattern :=
  [ mkPattern (lits (lit "post") ++ [one NonSpace] ++ lits (lit " auto "))
              [rng Digit 1 2] [] ].

(** [possibilit\S.{0,10}auto] *)
Definition car_on_request_pattern : pattern :=
  mkPattern (lits (lit "possibilit") ++ [one NonSpace; rng AnyChar 0 10]
             ++ lits (lit "auto")) [] [].

(** [\d+/$] *)
Definition listing_id_pattern : pattern :=
  mkPattern [plus Digit; one (Lit 47%N); Dollar] [] [].

(** [_extract_pattern]: group 1 of the first pattern, in the order of the
    tuple, that matches somewhere in the text. *)
Fixpoint _extract_pattern (t : text) (patterns : list pattern) : option text :=
  match patterns with
  | [] => None
  | pattern :: rest =>
      match search pattern t with
      | Some g => Some g
      | None => _extract_pattern t rest
      end
  end.

(** A value [_extract_pattern] returned, as the Python value it is. *)
Definition of_match (m : option text) : value :=
  match m with
  | Some g => PyStr g
  | None => PyNone
  end.

(** ** The world: pages, requests and the log *)

(** What [html.parser] exposes of a page: the text of [soup.get_text()]
    and the [href] of every [a] element in document order ([None] for an
    element without one). *)
Record document := mkDocument {
  doc_text : text;
  doc_hrefs : list (option text)
}.

(** The document of [BytesIO()], an empty body. *)
Definition empty_document : document :=
  {| doc_text := []; doc_hrefs := [] |}.

(** What a call of [requests.get] does. *)
Inductive response :=
| Content (d : document)      (* it returns; [req.content] parses to [d] *)
| Timeout                     (* it raises [requests.exceptions.Timeout] *)
| Failure.                    (* it raises another exception of [requests] *)

(** [pd.DataFrame(all_results)]: the frame pandas builds from a list of
    records, one row for each, in their order.  What pandas makes of the
    cells (a column that holds 1 and [None] becomes 1.0 and NaN) is not
    modelled: a frame is known here by the records it was built from. *)
Inductive DataFrame :=
| pd_DataFrame (all_results : list House.t).

(** The state the program acts on: the number of requests made so far,
    the URLs requested and the messages logged (both latest first), and
    the attributes [urls_] and [df_] of the object once they are set. *)
Record state := mkState {
  clock : nat;
  requested : list text;
  logged : list log_msg;
  urls_ : option (list text);
  df_ : option DataFrame
}.

Definition initial_state : state :=
  {| clock := 0; requested := []; logged := []; urls_ := None; df_ := None |}.

(** Requests and messages in the order they happened. *)
Definition requests (st : state) : list text := rev (requested st).
Definition log (st : state) : list log_msg := rev (logged st).

(** Computations that read and change the state and may raise. *)
Definition M (A : Type) := state -> result A * state.

Definition ret {A} (a : A) : M A := fun st => (Ok a, st).

Definition bind {A B} (c : M A) (k : A -> M B) : M B :=
  fun st =>
    match c st with
    | (Ok a, st') => k a st'
    | (Raise e, st') => (Raise e, st')
    end.

Declare Scope crawl_scope.
Delimit Scope crawl_scope with crawl.
Notation "x <- c ;; k" := (bind c (fun x => k))
  (at level 61, c at next level, right associativity) : crawl_scope.
Notation "c ;; k" := (bind c (fun _ => k))
  (at level 61, right associativity) : crawl_scope.
Open Scope crawl_scope.

(** [' '.join(s.split())]: the words of [s], one space between them. *)
Fixpoint words (s : text) (cur : text) : list text :=
  match s with
  | [] => match cur with [] => [] | _ => [rev cur] end
  | c :: s' =>
      if is_space c then
        match cur with
        | [] => words s' []
        | _ => rev cur :: words s' []
        end
      else words s' (c :: cur)
  end.

Fixpoint join_spaces (ws : list text) : text :=
  match ws with
  | [] => []
  | [w] => w
  | w :: ws' => w ++ 32%N :: join_spaces ws'
  end.

Definition normalize_spaces (s : text) : text := join_spaces (words s []).

(** ** The methods of [Immobiliare] *)

Section Crawler.

Variable self : Immobiliare.

(** [web n u]: what the [n]-th call of [requests.get] does when it asks
    for [u]. *)
Variable web : nat -> text -> response.

Definition _say (m : log_msg) : M unit :=
  fun st =>
    (Ok tt, {| clock := clock st; requested := requested st;
               logged := m :: logged st;
               urls_ := urls_ st; df_ := df_ st |}).

(** [_get_page]: only a timeout is caught. *)
Definition _get_page (u : text) : M document :=
  fun st =>
    let st' := {| clock := S (clock st); requested := u :: requested st;
                  logged := logged st;
                  urls_ := urls_ st; df_ := df_ st |} in
    match web (clock st) u with
    | Content page => (Ok page, st')
    | Timeout => (_say (TimeoutReaching u) ;; ret empty_document) st'
    | Failure => (Raise RequestException, st')
    end.

Definition _get_text (u : text) : M text :=
  page <- _get_page u ;;
  ret (normalize_spaces (doc_text page)).

(** *** [_get_data], from the lowered text on

    Each block of the method is a function of the text [t]; it returns
    what the block leaves in its variable and the messages it logs.  The
    cost block can raise: [int(cost)] on line 86 is outside any [try]. *)

Definition extract_cost (t sub_url : text) : result (value * list log_msg) :=
  match _extract_pattern t cost_patterns with
  | Some ((_ :: _) as cost) =>
      let cost := remove_dots cost in
      bind_r (int_of_text cost) (fun n =>
        if (n <? min_house_cost self)%Z
        then Ok (PyNone, [TooLowPrice n sub_url])
        else Ok (PyStr cost, []))
  | _ =>
      if contains (lit "prezzo su richiesta") t
      then Ok (PyFloat (price_not_found self), [PriceOnRequest sub_url])
      else Ok (PyFloat (price_not_found self), [CantGetPrice sub_url])
  end.

Definition extract_floor (t : text) : value :=
  let floor := of_match (_extract_pattern t floor_patterns) in
  if contains (lit "piano terra") t then PyInt 1 else floor.

Definition extract_ultimo (t : text) : bool := contains (lit "ultimo") t.

Definition extract_area (t : text) : value :=
  match _extract_pattern t [area_pattern] with
  | None => PyInt (area_not_found self)
  | Some area => PyStr area
  end.

(** [energy and energy[0] in "ABCDEF" and energy[-1] in "0123456789+"] *)
Definition energy_accepted (energy : option text) : bool :=
  match energy with
  | Some ((c :: _) as e) =>
      char_in c (lit "ABCDEF") && char_in (last e c) (lit "0123456789+")
  | _ => false
  end.

Definition extract_energy (t sub_url : text) : value * list log_msg :=
  let not_found :=
    if contains (lit "in attesa di certificazione") t
    then (PyStr (energy_not_found self), [EnergyPending sub_url])
    else (PyStr (energy_not_found self), [CantGetEnergy sub_url]) in
  match _extract_pattern t energy_patterns with
  | Some energy =>
      if energy_accepted (Some energy) then (PyStr (upper energy), [])
      else not_found
  | None => not_found
  end.

Definition extract_car (t sub_url : text) : value * list log_msg :=
  match _extract_pattern t car_patterns with
  | Some car => (PyStr car, [])
  | None =>
      if matches car_on_request_pattern t
      then (PyInt 0, [CarOnRequest sub_url])
      else (PyInt (car_not_found self), [])
  end.

(** [round(int(cost) / int(area), 1)] under the bare [except]. *)
Definition compute_price_per_area (cost area : value) : value :=
  match bind_r (int cost) (fun c =>
        bind_r (int area) (fun a =>
        bind_r (truediv c a) round1)) with
  | Ok f => PyFloat f
  | Raise _ => PyInt (invalid_price_per_area self)
  end.

(** Lines 78 to 159: the record and the messages, for the lowered text. *)
Definition extract (t sub_url : text) : result (House.t * list log_msg) :=
  bind_r (extract_cost t sub_url) (fun '(cost, log_cost) =>
    let floor := extract_floor t in
    let ultimo := extract_ultimo t in
    let area := extract_area t in
    let '(energy, log_energy) := extract_energy t sub_url in
    let '(car, log_car) := extract_car t sub_url in
    let price_per_area := compute_price_per_area cost area in
    Ok (House.mk cost price_per_area floor area ultimo sub_url energy car,
        log_cost ++ log_energy ++ log_car)).

Fixpoint say_all (ms : list log_msg) : M unit :=
  match ms with
  | [] => ret tt
  | m :: ms' => _say m ;; say_all ms'
  end.

Definition _get_data (sub_url : text) : M House.t :=
  raw <- _get_text sub_url ;;
  let t := lower raw in
  match extract t sub_url with
  | Ok (house, msgs) => say_all msgs ;; ret house
  | Raise e => fun st => (Raise e, st)
  end.

(** *** [get_all_urls] *)

(** [l and "https" in l and "annunci" in l and pattern.search(l)] *)
Definition is_listing (l : option text) : bool :=
  match l with
  | Some ((_ :: _) as l) =>
      contains (lit "https") l && contains (lit "annunci") l
      && matches listing_id_pattern l
  | _ => false
  end.

(** The links a page adds to [urls_], in document order. *)
Fixpoint listing_links (hrefs : list (option text)) : list text :=
  match hrefs with
  | [] => []
  | l :: rest =>
      if is_listing l
      then match l with
           | Some l => l :: listing_links rest
           | None => listing_links rest
           end
      else listing_links rest
  end.

(** [f"{self.url}&pag={i}"] *)
Definition page_url (i : nat) : text := url self ++ lit "&pag=" ++ of_nat i.

Definition stop_phrase_404 : text := lit "404 not found".
Definition stop_phrase_absent : text := lit "non " ++ e_grave :: lit " presente".

Definition is_last_page (t : text) : bool :=
  contains stop_phrase_404 t || contains stop_phrase_absent t.

(** The loop over [range(2, 10_000)], for the pages still to visit. *)
Fixpoint browse (pages : list nat) (found : list text) : M (list text) :=
  match pages with
  | [] => ret found
  | i :: rest =>
      _say (ProcessingPage i) ;;
      let curr_url := page_url i in
      raw <- _get_text curr_url ;;
      let t := lower raw in
      if is_last_page t then ret found
      else
        page <- _get_page curr_url ;;
        browse rest (found ++ listing_links (doc_hrefs page))
  end.

(** [range(lo, hi)] *)
Definition range (lo hi : N) : list nat :=
  seq (N.to_nat lo) (N.to_nat (hi - lo)).

Definition page_range : list nat := range 2 10000.

Definition set_urls_ (found : list text) : M unit :=
  fun st =>
    (Ok tt, {| clock := clock st; requested := requested st;
               logged := logged st;
               urls_ := Some found; df_ := df_ st |}).

(** The body of [get_all_urls]; it also returns the list it stores in
    [urls_].  The [time.sleep(self.wait)] before each link of page 1 only
    delays the run and is left out. *)
Definition discover : M (list text) :=
  _say (ProcessingPage 1) ;;
  page <- _get_page (url self) ;;
  let found := listing_links (doc_hrefs page) in
  found <- (if browse_all_pages self then browse page_range found
            else ret found) ;;
  set_urls_ found ;;
  _say UrlsStored ;;
  _say (FoundHouses (length found)) ;;
  ret found.

Definition get_all_urls : M unit := discover ;; ret tt.

(** *** [find_all_houses] *)

(** [ThreadPoolExecutor(max_workers=10)] *)
Definition max_workers : nat := 10.

(** How the pool happens to serve a run.  Each task of this program makes
    one request: [ticket i] is the number of requests of other tasks that
    are served before the request of task [i], and [ahead] is the number
    of tasks after a task that raised that a worker had already taken
    when the exception was collected.  Which schedules can happen depends
    on the number of workers ([pool_schedule] below); the pool is defined
    for any schedule. *)
Record schedule := mkSchedule {
  ticket : nat -> nat;
  ahead : nat
}.

(** [list(executor.map(f, xs))] inside the [with] block.  Every task is
    submitted at once and the workers take the tasks in the order of
    [xs].  The results are collected in that order.  When one raises,
    [Executor.map] cancels the tasks no worker has taken yet, which never
    run; the tasks already taken run to their end, since leaving the
    [with] block waits for them, and their results are dropped.  [left]
    is [None] as long as no task has raised, and then the number of
    later tasks that still run.  The state keeps the requests and
    messages of the tasks task by task; how the lines of different tasks
    interleave is not modelled. *)
Fixpoint pool_run {A B} (s : schedule) (f : A -> M B) (left : option nat)
    (i : nat) (xs : list A) (st : state) : list (result B) * state :=
  match xs, left with
  | [], _ => ([], st)
  | _ :: _, Some 0 => ([], st)
  | x :: xs', _ =>
      let '(r, st1) :=
        f x {| clock := clock st + ticket s i; requested := requested st;
               logged := logged st; urls_ := urls_ st; df_ := df_ st |} in
      let st2 := {| clock := clock st; requested := requested st1;
                    logged := logged st1;
                    urls_ := urls_ st1; df_ := df_ st1 |} in
      let left' := match left, r with
                   | Some k, _ => Some (Nat.pred k)
                   | None, Raise _ => Some (ahead s)
                   | None, Ok _ => None
                   end in
      let '(rs, st3) := pool_run s f left' (S i) xs' st2 in
      (r :: rs, st3)
  end.

(** The results as [list] collects them: all of them, or the first
    exception in the order of the tasks. *)
Fixpoint collect {B} (rs : list (result B)) : result (list B) :=
  match rs with
  | [] => Ok []
  | Ok b :: rs' => bind_r (collect rs') (fun bs => Ok (b :: bs))
  | Raise e :: _ => Raise e
  end.

Definition executor_map {A B} (s : schedule) (f : A -> M B)
    (xs : list A) : M (list B) :=
  fun st =>
    let '(rs, st') := pool_run s f None 0 xs st in
    (collect rs,
     {| clock := clock st + length rs; requested := requested st';
        logged := logged st'; urls_ := urls_ st'; df_ := df_ st' |}).

Definition set_df_ (all_results : list House.t) : M unit :=
  fun st =>
    (Ok tt, {| clock := clock st; requested := requested st;
               logged := logged st;
               urls_ := urls_ st; df_ := Some (pd_DataFrame all_results) |}).

(** [self.urls_], after [get_all_urls] when the attribute is not there. *)
Definition discovered_urls : M (list text) :=
  fun st =>
    match urls_ st with
    | Some us => (Ok us, st)
    | None => discover st
    end.

Definition find_all_houses (s : schedule) : M unit :=
  us <- discovered_urls ;;
  all_results <- executor_map s _get_data us ;;
  set_df_ all_results ;;
  _say ResultsStored ;;
  _say (PrintedCount (length all_results)).

End Crawler.

(** * Notions the statements use *)

(** The piece an item matched has the class and the length the item asks
    for. *)
Definition piece_ok (it : item) (piece : text) : Prop :=
  match it with
  | Q k lo hi =>
      forallb (in_cls k) piece = true /\ lo <= length piece /\
      match hi with Some h => length piece <= h | None => True end
  | Dollar => piece = []
  end.

(** The items of the groups of the cost patterns. *)
Definition digits_or_dot (it : item) : Prop := it = plus Digit \/ it = dot.

(** The number a matched price stands for. *)
Definition parsed_price (g : text) : Z := int_of_digits (remove_dots g).

(** The price of a text is one [int] reads on line 86: no cost pattern
    matches, or the group it captures has at most [max_str_digits]
    digits. *)
Definition price_is_read (t : text) : bool :=
  match _extract_pattern t cost_patterns with
  | Some g => within_limit (remove_dots g)
  | None => true
  end.

(** [Immobiliare(u, min_house_cost=m)] *)
Definition with_min_house_cost (m : Z) (self : Immobiliare) : Immobiliare :=
  {| url := url self; verbose := verbose self; min_house_cost := m;
     browse_all_pages := browse_all_pages self; wait := wait self;
     area_not_found := area_not_found self;
     price_not_found := price_not_found self;
     floor_not_found := floor_not_found self;
     car_not_found := car_not_found self;
     energy_not_found := energy_not_found self;
     invalid_price_per_area := invalid_price_per_area self |}.

(** The record of a text, when [extract] returns one. *)
Definition record_of (r : result (House.t * list log_msg)) : option House.t :=
  match r with
  | Ok (house, _) => Some house
  | Raise _ => None
  end.

(** The messages logged for it. *)
Definition messages_of (r : result (House.t * list log_msg)) : list log_msg :=
  match r with
  | Ok (_, msgs) => msgs
  | Raise _ => []
  end.

(** [Immobiliare(u, floor_not_found=v)] *)
Definition with_floor_not_found (v : Z) (self : Immobiliare) : Immobiliare :=
  {| url := url self; verbose := verbose self;
     min_house_cost := min_house_cost self;
     browse_all_pages := browse_all_pages self; wait := wait self;
     area_not_found := area_not_found self;
     price_not_found := price_not_found self;
     floor_not_found := v;
     car_not_found := car_not_found self;
     energy_not_found := energy_not_found self;
     invalid_price_per_area := invalid_price_per_area self |}.


(** The integer [int(cost)] yields for the cost block's value, when it
    yields one: the parsed price that passed the floor, or the integer
    part of a finite [price_not_found] when no pattern matched. *)
Definition cost_number (self : Immobiliare) (t : text) : option Z :=
  match _extract_pattern t cost_patterns with
  | Some g =>
      if (parsed_price g <? min_house_cost self)%Z then None
      else Some (parsed_price g)
  | None =>
      match int_of_float (price_not_found self) with
      | Ok c => Some c
      | Raise _ => None
      end
  end.

(** The integer [int(area)] yields: the parsed area, or [area_not_found]. *)
Definition area_number (self : Immobiliare) (t : text) : Z :=
  match _extract_pattern t [area_pattern] with
  | Some g => int_of_digits g
  | None => area_not_found self
  end.

(** [Immobiliare(u, area_not_found=v)] *)
Definition with_area_not_found (v : Z) (self : Immobiliare) : Immobiliare :=
  {| url := url self; verbose := verbose self;
     min_house_cost := min_house_cost self;
     browse_all_pages := browse_all_pages self; wait := wait self;
     area_not_found := v;
     price_not_found := price_not_found self;
     floor_not_found := floor_not_found self;
     car_not_found := car_not_found self;
     energy_not_found := energy_not_found self;
     invalid_price_per_area := invalid_price_per_area self |}.

(** [Immobiliare(u, price_not_found=v)] *)
Definition with_price_not_found (v : float) (self : Immobiliare) : Immobiliare :=
  {| url := url self; verbose := verbose self;
     min_house_cost := min_house_cost self;
     browse_all_pages := browse_all_pages self; wait := wait self;
     area_not_found := area_not_found self;
     price_not_found := v;
     floor_not_found := floor_not_found self;
     car_not_found := car_not_found self;
     energy_not_found := energy_not_found self;
     invalid_price_per_area := invalid_price_per_area self |}.

(** The document [_get_page] returns for a response that is not a
    failure. *)
Definition response_document (r : response) : document :=
  match r with
  | Content page => page
  | _ => empty_document
  end.

(** The message [_get_page] logs for it. *)
Definition timeout_note (r : response) (u : text) : list log_msg :=
  match r with
  | Timeout => [TimeoutReaching u]
  | _ => []
  end.

(** [self._get_text(sub_url).lower()] *)
Definition page_text (r : response) : text :=
  lower (normalize_spaces (doc_text (response_document r))).

(** The state after one request for [u] and the messages [msgs]. *)
Definition after_request (st : state) (u : text) (msgs : list log_msg) : state :=
  {| clock := S (clock st); requested := u :: requested st;
     logged := rev msgs ++ logged st;
     urls_ := urls_ st; df_ := df_ st |}.

(** The site of one page, whatever is asked. *)
Definition one_page (s : text) : nat -> text -> response :=
  fun _ _ => Content {| doc_text := s; doc_hrefs := [] |}.

(** The last page [range(2, 10_000)] reaches. *)
Definition last_page : nat := N.to_nat 9999.

(** A page of results that lists house [n] among other links, and a page
    that says it is not there. *)
Definition listing_page (n : string) : document :=
  {| doc_text := lit "Annunci   case in vendita";
     doc_hrefs := [Some (lit "https://www.immobiliare.it/annunci/" ++ lit n
                         ++ lit "/");
                   Some (lit "https://www.immobiliare.it/agenzie/");
                   None] |}.

Definition missing_page : document :=
  {| doc_text := lit "La pagina NON " ++ [200%N] ++ lit " presente";
     doc_hrefs := [Some (lit "https://www.immobiliare.it/annunci/999/")] |}.

(** A site of three pages of results: pages 1 and 2 list one house each,
    page 3 and every other address are missing pages. *)
Definition three_pages (self : Immobiliare) : text -> response :=
  fun u =>
    if text_eq_dec u (url self) then Content (listing_page "101")
    else if text_eq_dec u (page_url self 2) then Content (listing_page "102")
    else Content missing_page.


(** The address of page [i] of the results. *)
Definition page_address (self : Immobiliare) (i : nat) : text :=
  if i =? 1 then url self else page_url self i.


(** The state of an object whose [urls_] is set. *)
Definition after_discovery (us : list text) : state :=
  {| clock := 1; requested := []; logged := [];
     urls_ := Some us; df_ := None |}.

(** The price per area of a page with no price and no area: the quotient
    of the two configured values when it exists, else
    [invalid_price_per_area]. *)
Definition price_per_area_of_nothing (self : Immobiliare) : value :=
  match int_of_float (price_not_found self) with
  | Ok c =>
      match bind_r (truediv c (area_not_found self)) round1 with
      | Ok f => PyFloat f
      | Raise _ => PyInt (invalid_price_per_area self)
      end
  | Raise _ => PyInt (invalid_price_per_area self)
  end.

(** A site that never answers in time. *)
Definition silent_site : nat -> text -> response := fun _ _ => Timeout.

Section SiteNotions.

Variable self : Immobiliare.

(** [site u]: what every request for [u] does. *)
Variable site : text -> response.

Definition web_of_site : nat -> text -> response := fun _ u => site u.

(** The links discovery takes from the page at [u]. *)
Definition links_at (u : text) : list text :=
  listing_links (doc_hrefs (response_document (site u))).

Definition links_of_page (i : nat) : list text := links_at (page_url self i).




(** The links of pages 1 to [k - 1], in page order. *)
Definition links_before (k : nat) : list text :=
  links_at (url self)
  ++ flat_map links_of_page (seq 2 (k - 2)).

End SiteNotions.

Section PoolNotions.

Variable self : Immobiliare.
Variable web : nat -> text -> response.
Variable s : schedule.



End PoolNotions.

(** The schedules ten workers can produce on [n] tasks: a task is taken
    when a worker is free, so when task [i] makes its request all but at
    most nine of the tasks before it have made theirs. *)
Definition pool_schedule (n : nat) (s : schedule) : Prop :=
  forall i, i < n -> i < ticket s i + max_workers /\ ticket s i < n.

(** ** Notions of the further properties *)

(** [g] occurs in [t] as a run of consecutive characters. *)
Definition is_substring (g t : text) : Prop :=
  exists before after, t = before ++ g ++ after.

(** A non-empty string of decimal digits. *)
Definition digit_string (d : text) : Prop :=
  d <> [] /\ forallb is_digit d = true.

(** A float that is a number: not NaN, not an infinity. *)
Definition is_number (f : float) : bool :=
  match f with
  | S754_zero _ | S754_finite _ _ _ => true
  | S754_infinity _ | S754_nan => false
  end.

(** A word: a non-empty string with no whitespace in it. *)
Definition is_word (w : text) : Prop :=
  w <> [] /\ forallb (fun c => negb (is_space c)) w = true.

(** [l] ends with a digit and a slash, possibly before a final newline. *)
Definition ends_with_id (l : text) : Prop :=
  exists before d tail,
    l = before ++ d :: 47%N :: tail /\ is_digit d = true /\
    (tail = [] \/ tail = [10%N]).


(** A field that holds the digits of a number from 0 to [bound]. *)
Definition digits_up_to (bound : Z) (v : value) : Prop :=
  exists d, v = PyStr d /\ digit_string d /\
            int v = Ok (int_of_digits d) /\
            (0 <= int_of_digits d <= bound)%Z.

(** The messages the three logging blocks of [_get_data] emit for a
    lowered text, in the order of the blocks. *)
Definition cost_log (self : Immobiliare) (t sub_url : text) : list log_msg :=
  match _extract_pattern t cost_patterns with
  | Some g =>
      if (parsed_price g <? min_house_cost self)%Z
      then [TooLowPrice (parsed_price g) sub_url]
      else []
  | None =>
      [if contains (lit "prezzo su richiesta") t
       then PriceOnRequest sub_url else CantGetPrice sub_url]
  end.

Definition energy_log (t sub_url : text) : list log_msg :=
  [if contains (lit "in attesa di certificazione") t
   then EnergyPending sub_url else CantGetEnergy sub_url].

Definition car_log (t sub_url : text) : list log_msg :=
  match _extract_pattern t car_patterns with
  | Some _ => []
  | None =>
      if matches car_on_request_pattern t then [CarOnRequest sub_url] else []
  end.

(** The test [get_all_urls] puts on a link, in words. *)
Definition looks_like_listing (l : text) : Prop :=
  is_substring (lit "https") l /\ is_substring (lit "annunci") l /\
  ends_with_id l.


(** A site on which one listing cannot be reached. *)
Definition site_without (bad : text) : nat -> text -> response :=
  fun _ u =>
    if text_eq_dec u bad then Failure
    else Content {| doc_text := lit "Bilocale piano 1"; doc_hrefs := [] |}.

(** What the loop of [get_all_urls] returns on a site that answers the
    same to the same address, and what discovery as a whole returns. *)
Fixpoint browse_site (self : Immobiliare) (site : text -> response)
    (pages : list nat) (found : list text) : result (list text) :=
  match pages with
  | [] => Ok found
  | i :: rest =>
      match site (page_url self i) with
      | Failure => Raise RequestException
      | r =>
          if is_last_page (page_text r) then Ok found
          else browse_site self site rest
                 (found ++ listing_links (doc_hrefs (response_document r)))
      end
  end.

Definition discover_site (self : Immobiliare) (site : text -> response)
    : result (list text) :=
  match site (url self) with
  | Failure => Raise RequestException
  | r =>
      let found := listing_links (doc_hrefs (response_document r)) in
      if browse_all_pages self then browse_site self site page_range found
      else Ok found
  end.


(** The pool serving the first ten tasks last to first, then the next
    ten last to first. *)
Definition ten_by_ten : schedule :=
  {| ticket := fun j => if j <? 10 then 9 - j else 29 - j; ahead := 0 |}.

(** The pool serving the tasks in their order, [k] of them ahead when an
    exception is collected. *)
Definition in_order (k : nat) : schedule :=
  {| ticket := fun j => j; ahead := k |}.



(** A price of 4301 digits: 1 and, after the dot, 4300 zeros. *)
Definition long_price : text := lit "1." ++ repeat 48%N (N.to_nat 4300).

(** A site on which the page of one listing shows such a price. *)
Definition long_price_site (bad : text) : nat -> text -> response :=
  fun _ u =>
    if text_eq_dec u bad
    then Content {| doc_text := lit "Villa " ++ euro :: lit " " ++ long_price;
                    doc_hrefs := [] |}
    else Content {| doc_text := lit "Bilocale piano 1"; doc_hrefs := [] |}.

(** * Properties *)

(** ** The matcher and the arithmetic on examples *)

Example search_euro :
  search (mkPattern (lits [euro; 32%N])
                    [plus Digit; one (Lit 46%N); plus Digit] [])
         (lit "prezzo " ++ [euro] ++ lit " 150.000 trattabile")
  = Some (lit "150.000").
Proof. reflexivity. Qed.

Example truediv_150000_50 :
  bind_r (truediv 150000 50) round1 = Ok (float_of_Z 3000).
Proof. reflexivity. Qed.

Example round1_quarter :
  bind_r (truediv 1 4) round1 = truediv 2 10 /\
  bind_r (truediv 3 4) round1 = truediv 8 10 /\
  bind_r (truediv 200000 3) round1 = truediv 666667 10.
Proof. repeat split; reflexivity. Qed.
(** ** What a match tells about the text *)

Section MatcherFacts.

Arguments is_digit : simpl never.
Arguments is_space : simpl never.

Lemma rep_sound {A} k (cont : text -> option A) :
  forall s lo hi piece r,
    rep k lo hi cont s = Some (piece, r) ->
    piece_ok (Q k lo hi) piece /\ exists s', s = piece ++ s' /\ cont s' = Some r.
Proof.
  assert (Hstop : forall s lo hi piece r,
    match lo with
    | O => option_map (fun r => (@nil char, r)) (cont s)
    | S _ => None
    end = Some (piece, r) ->
    piece_ok (Q k lo hi) piece /\ exists s', s = piece ++ s' /\ cont s' = Some r).
  { intros s lo hi piece r H. destruct lo as [|lo]; [|discriminate].
    destruct (cont s) as [r'|] eqn:E; [|discriminate].
    simpl in H. inversion H; subst. split.
    - simpl. repeat split; auto. destruct hi; auto. apply Nat.le_0_l.
    - exists s. auto. }
  induction s as [|c s IH]; intros lo hi piece r H.
  - simpl in H. apply Hstop with (hi := hi) in H. exact H.
  - simpl in H.
    destruct (hi_allows hi && in_cls k c) eqn:Htake.
    + destruct (rep k (Nat.pred lo) (hi_pred hi) cont s) as [[p r']|] eqn:E.
      * inversion H; subst. apply IH in E.
        destruct E as [[Hcls [Hlo Hhi]] [s' [Hs Hc]]].
        apply andb_prop in Htake. destruct Htake as [Hal Hin].
        split.
        -- simpl. rewrite Hin, Hcls. repeat split; auto.
           ++ destruct lo; simpl in *; lia.
           ++ destruct hi as [[|h]|]; simpl in *; try discriminate; auto; lia.
        -- exists s'. subst s. auto.
      * apply Hstop with (hi := hi) in H. exact H.
    + apply Hstop with (hi := hi) in H. exact H.
Qed.

Lemma match_here_sound :
  forall p s pieces,
    match_here p s = Some pieces ->
    Forall2 piece_ok p pieces /\ exists rest, s = concat pieces ++ rest.
Proof.
  induction p as [|it p IH]; intros s pieces H.
  - simpl in H. inversion H; subst. split; [constructor | exists s; reflexivity].
  - destruct it as [k lo hi|]; simpl in H.
    + destruct (rep k lo hi (match_here p) s) as [[piece r]|] eqn:E;
        [|discriminate].
      simpl in H. inversion H; subst.
      apply rep_sound in E. destruct E as [Hok [s' [Hs Hc]]].
      apply IH in Hc. destruct Hc as [Hall [rest Hrest]].
      split; [constructor; assumption|].
      exists rest. simpl. rewrite <- app_assoc, <- Hrest. exact Hs.
    + destruct (at_end s); [|discriminate].
      destruct (match_here p s) as [r|] eqn:E; [|discriminate].
      simpl in H. inversion H; subst.
      apply IH in E. destruct E as [Hall [rest Hrest]].
      split; [constructor; [reflexivity | assumption]|].
      exists rest. exact Hrest.
Qed.

Lemma search_items_sound :
  forall p s pieces,
    search_items p s = Some pieces ->
    Forall2 piece_ok p pieces /\
    exists before after, s = before ++ concat pieces ++ after.
Proof.
  intros p. induction s as [|c s IH]; intros pieces H; simpl in H.
  - destruct (match_here p []) as [r|] eqn:E; [|discriminate].
    inversion H; subst. apply match_here_sound in E.
    destruct E as [Hall [rest Hrest]]. split; [assumption|].
    exists [], rest. exact Hrest.
  - destruct (match_here p (c :: s)) as [r|] eqn:E.
    + inversion H; subst. apply match_here_sound in E.
      destruct E as [Hall [rest Hrest]]. split; [assumption|].
      exists [], rest. exact Hrest.
    + apply IH in H. destruct H as [Hall [before [after Hs]]].
      split; [assumption|]. exists (c :: before), after.
      simpl. rewrite Hs. reflexivity.
Qed.

Lemma Forall2_split_l {A B} (R : A -> B -> Prop) :
  forall l1 l2 l',
    Forall2 R (l1 ++ l2) l' ->
    Forall2 R l1 (firstn (length l1) l') /\
    Forall2 R l2 (skipn (length l1) l').
Proof.
  induction l1 as [|a l1 IH]; intros l2 l' H; simpl in *.
  - split; [constructor | assumption].
  - inversion H as [|a' b l0 l0' Hab Hrest]; subst.
    apply IH in Hrest. destruct Hrest as [Hl Hr].
    simpl. split; [constructor; assumption | assumption].
Qed.

Lemma In_concat_firstn_skipn (n m : nat) (pieces : list text) (c : char) :
  In c (concat (firstn n (skipn m pieces))) -> In c (concat pieces).
Proof.
  intros H. apply in_concat in H. destruct H as [piece [Hp Hc]].
  apply in_concat. exists piece. split; [|assumption].
  rewrite <- (firstn_skipn m pieces). apply in_or_app. right.
  rewrite <- (firstn_skipn n (skipn m pieces)). apply in_or_app. left.
  assumption.
Qed.

(** The group of a match is made of pieces that fit the items of the
    group, and its characters are characters of the text. *)
Lemma search_sound (p : pattern) (s g : text) :
  search p s = Some g ->
  (exists pieces, Forall2 piece_ok (grp p) pieces /\ g = concat pieces) /\
  (forall c, In c g -> In c s).
Proof.
  unfold search. intros H.
  destruct (search_items (items p) s) as [pieces|] eqn:E; [|discriminate].
  simpl in H. inversion H; subst. clear H.
  apply search_items_sound in E. destruct E as [Hall [before [after Hs]]].
  split.
  - exists (firstn (length (grp p)) (skipn (length (pre p)) pieces)).
    split; [|reflexivity].
    unfold items in Hall. apply Forall2_split_l in Hall.
    destruct Hall as [_ Hall]. apply Forall2_split_l in Hall.
    destruct Hall as [Hall _]. exact Hall.
  - intros c Hc. apply In_concat_firstn_skipn in Hc. subst s.
    apply in_or_app. right. apply in_or_app. left. exact Hc.
Qed.

Lemma _extract_pattern_sound (t : text) (patterns : list pattern) (g : text) :
  _extract_pattern t patterns = Some g ->
  exists p, In p patterns /\ search p t = Some g.
Proof.
  induction patterns as [|p ps IH]; simpl; [discriminate|].
  destruct (search p t) as [g'|] eqn:E.
  - intros H. inversion H; subst. exists p. auto.
  - intros H. apply IH in H. destruct H as [q [Hq Hs]]. exists q. auto.
Qed.

Lemma _extract_pattern_chars (t : text) (patterns : list pattern) (g : text) :
  _extract_pattern t patterns = Some g -> forall c, In c g -> In c t.
Proof.
  intros H. apply _extract_pattern_sound in H. destruct H as [p [_ Hs]].
  apply search_sound in Hs. tauto.
Qed.

End MatcherFacts.

(** ** The cost group is a number *)

Section CostFacts.

Arguments is_digit : simpl never.

Lemma digit_is_not_dot (c : char) :
  is_digit c = true -> char_eqb c 46%N = false.
Proof.
  intros H. destruct (char_eqb c 46%N) eqn:E; [|reflexivity].
  apply N.eqb_eq in E. subst c. vm_compute in H. discriminate.
Qed.

Lemma remove_dots_app (a b : text) :
  remove_dots (a ++ b) = remove_dots a ++ remove_dots b.
Proof. apply filter_app. Qed.

Lemma remove_dots_digits (d : text) :
  forallb is_digit d = true -> remove_dots d = d.
Proof.
  induction d as [|c d IH]; simpl; [reflexivity|].
  intros H. apply andb_prop in H. destruct H as [Hc Hd].
  rewrite (digit_is_not_dot c Hc). simpl. rewrite (IH Hd). reflexivity.
Qed.

Lemma remove_dots_of_dots (x : text) :
  forallb (char_eqb 46%N) x = true -> remove_dots x = [].
Proof.
  induction x as [|c x IH]; [reflexivity|].
  cbn [forallb]. intros H. apply andb_prop in H. destruct H as [Hc Hx].
  apply N.eqb_eq in Hc. subst c. unfold remove_dots in *.
  cbn [filter]. unfold char_eqb at 1. rewrite N.eqb_refl. cbn [negb].
  auto.
Qed.

Lemma price_pieces_digits :
  forall its pieces,
    Forall2 piece_ok its pieces ->
    Forall digits_or_dot its ->
    forallb is_digit (remove_dots (concat pieces)) = true.
Proof.
  induction 1 as [|it piece its pieces Hok Hrest IH]; intros Hits.
  - reflexivity.
  - inversion Hits as [|? ? Hit Hits']; subst.
    simpl. rewrite remove_dots_app, forallb_app, (IH Hits'), andb_true_r.
    destruct Hit as [-> | ->]; simpl in Hok; destruct Hok as [Hcls _].
    + rewrite (remove_dots_digits _ Hcls). exact Hcls.
    + rewrite (remove_dots_of_dots _ Hcls). reflexivity.
Qed.

Lemma price_pieces_nonempty :
  forall its pieces,
    Forall2 piece_ok (plus Digit :: its) pieces ->
    exists c rest, remove_dots (concat pieces) = c :: rest /\
                   exists c' rest', concat pieces = c' :: rest'.
Proof.
  intros its pieces H.
  inversion H as [|it piece its' pieces' Hok Hrest]; subst.
  simpl in Hok. destruct Hok as [Hcls [Hlen _]].
  simpl. rewrite remove_dots_app, (remove_dots_digits _ Hcls).
  destruct piece as [|c piece]; [simpl in Hlen; lia|].
  simpl. eauto 6.
Qed.

(** What a cost pattern captures: a non-empty string that, with its dots
    removed, is a non-empty string of digits. *)
Lemma cost_group_shape (t g : text) :
  _extract_pattern t cost_patterns = Some g ->
  (exists c rest, g = c :: rest) /\
  (exists c rest, remove_dots g = c :: rest) /\
  forallb is_digit (remove_dots g) = true.
Proof.
  intros H. apply _extract_pattern_sound in H. destruct H as [p [Hp Hs]].
  apply search_sound in Hs. destruct Hs as [[pieces [Hall Hg]] _]. subst g.
  assert (Hshape : exists its, grp p = plus Digit :: its /\
                               Forall digits_or_dot (grp p)).
  { unfold digits_or_dot.
    destruct Hp as [<- | [<- | []]]; simpl; eexists; (split; [reflexivity|]);
      repeat (constructor; [(left; reflexivity) || (right; reflexivity)|]);
      constructor. }
  destruct Hshape as [its [Hgrp Hits]].
  split; [|split].
  - rewrite Hgrp in Hall. apply price_pieces_nonempty in Hall.
    destruct Hall as [_ [_ [_ Hne]]]. exact Hne.
  - rewrite Hgrp in Hall. apply price_pieces_nonempty in Hall.
    destruct Hall as [c [rest [Hne _]]]. eauto.
  - apply price_pieces_digits with (its := grp p); assumption.
Qed.

(** So [int(cost)] on line 86 raises for one reason only: too many
    digits. *)
Lemma int_of_cost_group (t g : text) :
  _extract_pattern t cost_patterns = Some g ->
  int_of_text (remove_dots g) =
  if within_limit (remove_dots g)
  then Ok (int_of_digits (remove_dots g)) else Raise ValueError.
Proof.
  intros H. apply cost_group_shape in H.
  destruct H as [_ [[c [rest Hne]] Hdig]].
  unfold int_of_text. rewrite Hne in *. rewrite Hdig. reflexivity.
Qed.

End CostFacts.

(** ** The blocks of [_get_data], case by case *)

Section ExtractFacts.

Variable self : Immobiliare.

Lemma extract_cost_of_group (t sub_url g : text) :
  _extract_pattern t cost_patterns = Some g ->
  extract_cost self t sub_url =
  if within_limit (remove_dots g)
  then if (parsed_price g <? min_house_cost self)%Z
       then Ok (PyNone, [TooLowPrice (parsed_price g) sub_url])
       else Ok (PyStr (remove_dots g), [])
  else Raise ValueError.
Proof.
  intros H. unfold extract_cost. rewrite H.
  pose proof (int_of_cost_group _ _ H) as Hint.
  destruct (cost_group_shape _ _ H) as [[c [rest Hg]] _]. subst g.
  cbv beta iota zeta. rewrite Hint.
  destruct (within_limit (remove_dots (c :: rest))); reflexivity.
Qed.

Lemma extract_cost_matched (t sub_url g : text) :
  _extract_pattern t cost_patterns = Some g ->
  within_limit (remove_dots g) = true ->
  extract_cost self t sub_url =
  if (parsed_price g <? min_house_cost self)%Z
  then Ok (PyNone, [TooLowPrice (parsed_price g) sub_url])
  else Ok (PyStr (remove_dots g), []).
Proof.
  intros H Hlim. rewrite (extract_cost_of_group _ sub_url _ H), Hlim.
  reflexivity.
Qed.

(** A cost block that returned had a price within the limit. *)
Lemma extract_cost_returned (t sub_url g : text) (cost : value)
    (log_cost : list log_msg) :
  _extract_pattern t cost_patterns = Some g ->
  extract_cost self t sub_url = Ok (cost, log_cost) ->
  within_limit (remove_dots g) = true.
Proof.
  intros H Hc. rewrite (extract_cost_of_group _ sub_url _ H) in Hc.
  destruct (within_limit (remove_dots g)); [reflexivity | discriminate Hc].
Qed.

Lemma extract_cost_unmatched (t sub_url : text) :
  _extract_pattern t cost_patterns = None ->
  extract_cost self t sub_url =
  Ok (PyFloat (price_not_found self),
      [if contains (lit "prezzo su richiesta") t
       then PriceOnRequest sub_url else CantGetPrice sub_url]).
Proof.
  intros H. unfold extract_cost. rewrite H.
  destruct (contains (lit "prezzo su richiesta") t); reflexivity.
Qed.

(** Once it has the text, [_get_data] returns when the price is one [int]
    reads, and raises the [ValueError] of line 86 when it is not. *)
Lemma extract_returns (t sub_url : text) :
  price_is_read t = true ->
  exists house msgs, extract self t sub_url = Ok (house, msgs).
Proof.
  unfold price_is_read, extract.
  destruct (_extract_pattern t cost_patterns) as [g|] eqn:E; intros Hlim.
  - rewrite (extract_cost_matched _ sub_url _ E Hlim).
    destruct (parsed_price g <? min_house_cost self)%Z; simpl;
      destruct (extract_energy self t sub_url);
      destruct (extract_car self t sub_url); eauto.
  - rewrite (extract_cost_unmatched _ sub_url E). simpl.
    destruct (extract_energy self t sub_url);
      destruct (extract_car self t sub_url); eauto.
Qed.

Lemma extract_raises (t sub_url : text) :
  price_is_read t = false -> extract self t sub_url = Raise ValueError.
Proof.
  unfold price_is_read, extract.
  destruct (_extract_pattern t cost_patterns) as [g|] eqn:E; intros Hlim;
    [|discriminate Hlim].
  rewrite (extract_cost_of_group _ sub_url _ E), Hlim. reflexivity.
Qed.

Lemma extract_returned (t sub_url : text) (house : House.t)
    (msgs : list log_msg) :
  extract self t sub_url = Ok (house, msgs) -> price_is_read t = true.
Proof.
  intros H. destruct (price_is_read t) eqn:E; [reflexivity|].
  rewrite (extract_raises _ sub_url E) in H. discriminate H.
Qed.

End ExtractFacts.

Section RecordFacts.

Variable self : Immobiliare.

(** The record [extract] builds, field by field. *)
Lemma extract_record (t sub_url : text) (house : House.t) (msgs : list log_msg) :
  extract self t sub_url = Ok (house, msgs) ->
  exists cost log_cost,
    extract_cost self t sub_url = Ok (cost, log_cost) /\
    house = House.mk cost
              (compute_price_per_area self cost (extract_area self t))
              (extract_floor t) (extract_area self t) (extract_ultimo t)
              sub_url
              (fst (extract_energy self t sub_url))
              (fst (extract_car self t sub_url)) /\
    msgs = log_cost ++ snd (extract_energy self t sub_url)
                    ++ snd (extract_car self t sub_url).
Proof.
  unfold extract. intros H.
  destruct (extract_cost self t sub_url) as [[cost log_cost]|e]; [|discriminate].
  simpl in H.
  destruct (extract_energy self t sub_url) as [energy log_energy].
  destruct (extract_car self t sub_url) as [car log_car].
  inversion H; subst. exists cost, log_cost. auto.
Qed.

(** A group of one to [hi] digits reads as a number. *)
Lemma int_of_digit_group (t g : text) (p : pattern) (hi : nat) :
  grp p = [rng Digit 1 hi] ->
  (N.of_nat hi <= max_str_digits)%N ->
  _extract_pattern t [p] = Some g ->
  int_of_text g = Ok (int_of_digits g).
Proof.
  intros Hgrp Hmax H. apply _extract_pattern_sound in H.
  destruct H as [q [[<- | []] Hs]].
  apply search_sound in Hs. destruct Hs as [[pieces [Hall ->]] _].
  rewrite Hgrp in Hall.
  inversion Hall as [|it piece its ps Hok Hrest]; subst.
  inversion Hrest; subst. simpl in Hok. destruct Hok as [Hcls [Hlen Hhi]].
  simpl. rewrite app_nil_r. unfold int_of_text.
  destruct piece as [|c piece]; [simpl in Hlen; lia|].
  change (forallb is_digit (c :: piece) = true) in Hcls.
  assert (Hlim : within_limit (c :: piece) = true).
  { unfold within_limit. apply N.leb_le. lia. }
  rewrite Hcls, Hlim. reflexivity.
Qed.

(** The messages of the energy and parking blocks are their own. *)
Lemma energy_messages (t sub_url : text) (m : log_msg) :
  In m (snd (extract_energy self t sub_url)) ->
  m = EnergyPending sub_url \/ m = CantGetEnergy sub_url.
Proof.
  unfold extract_energy.
  destruct (_extract_pattern t energy_patterns) as [e|];
    [destruct (energy_accepted (Some e))|];
    destruct (contains (lit "in attesa di certificazione") t);
    simpl; intuition.
Qed.

Lemma car_messages (t sub_url : text) (m : log_msg) :
  In m (snd (extract_car self t sub_url)) -> m = CarOnRequest sub_url.
Proof.
  unfold extract_car.
  destruct (_extract_pattern t car_patterns) as [c|];
    [|destruct (matches car_on_request_pattern t)];
    simpl; intuition.
Qed.

End RecordFacts.

(** ** Cost: the floor on the price *)

(** C1, as the code has it.  When a cost pattern matches a price of at
    most [max_str_digits] digits, the group with its dots removed reads
    as an integer [n].  Below [min_house_cost] the cost field is [None]
    and the message of the rejection is logged, with neither of the two
    messages of an unmatched price; otherwise the cost field is the
    string of digits, which [int] reads as [n]. *)
Theorem cost_of_matched_price (self : Immobiliare) (t sub_url g : text) :
  _extract_pattern t cost_patterns = Some g ->
  within_limit (remove_dots g) = true ->
  exists house msgs,
    extract self t sub_url = Ok (house, msgs) /\
    int_of_text (remove_dots g) = Ok (parsed_price g) /\
    if (parsed_price g <? min_house_cost self)%Z
    then House.cost house = PyNone /\
         In (TooLowPrice (parsed_price g) sub_url) msgs /\
         ~ In (CantGetPrice sub_url) msgs /\
         ~ In (PriceOnRequest sub_url) msgs
    else House.cost house = PyStr (remove_dots g) /\
         int (House.cost house) = Ok (parsed_price g).
Proof.
  intros Hg Hlim.
  assert (Hint : int_of_text (remove_dots g) = Ok (parsed_price g)).
  { rewrite (int_of_cost_group _ _ Hg), Hlim. reflexivity. }
  assert (Hread : price_is_read t = true).
  { unfold price_is_read. rewrite Hg. exact Hlim. }
  destruct (extract_returns self t sub_url Hread) as [house [msgs Hex]].
  exists house, msgs. split; [exact Hex|].
  split; [exact Hint|].
  destruct (extract_record _ _ _ _ _ Hex) as [cost [log_cost [Hc [Hh Hm]]]].
  rewrite (extract_cost_matched self _ sub_url _ Hg Hlim) in Hc.
  destruct (parsed_price g <? min_house_cost self)%Z;
    inversion Hc; subst; simpl.
  - split; [reflexivity|]. split; [left; reflexivity|].
    split; intros [Hbad | Hbad]; try discriminate;
      apply in_app_or in Hbad; destruct Hbad as [Hbad | Hbad];
      try (apply energy_messages in Hbad; destruct Hbad; discriminate);
      try (apply car_messages in Hbad; discriminate).
  - split; [reflexivity|]. exact Hint.
Qed.

Lemma cost_of_matched_price_witness :
  exists house msgs,
    extract (default_config (lit "u")) (euro :: lit " 150.000") (lit "l")
      = Ok (house, msgs) /\
    int_of_text (remove_dots (lit "150.000")) = Ok (parsed_price (lit "150.000")) /\
    if (parsed_price (lit "150.000") <? min_house_cost (default_config (lit "u")))%Z
    then House.cost house = PyNone /\
         In (TooLowPrice (parsed_price (lit "150.000")) (lit "l")) msgs /\
         ~ In (CantGetPrice (lit "l")) msgs /\
         ~ In (PriceOnRequest (lit "l")) msgs
    else House.cost house = PyStr (remove_dots (lit "150.000")) /\
         int (House.cost house) = Ok (parsed_price (lit "150.000")).
Proof.
  apply (cost_of_matched_price (default_config (lit "u"))
           (euro :: lit " 150.000") (lit "l") (lit "150.000"));
    reflexivity.
Defined.

(** C1 as stated fails: for "€ 50.000" under a minimum of 100000 the cost
    field is [None], not the price-not-found value; and for "€ 150.000"
    under the default minimum it is the string "150000", not the integer. *)
Lemma low_price_leaves_None :
  option_map House.cost
    (record_of (extract (with_min_house_cost 100000 (default_config (lit "u")))
                        (euro :: lit " 50.000") (lit "l")))
  = Some PyNone /\
  PyNone <> PyFloat (price_not_found
                       (with_min_house_cost 100000 (default_config (lit "u")))) /\
  messages_of (extract (with_min_house_cost 100000 (default_config (lit "u")))
                       (euro :: lit " 50.000") (lit "l"))
  = [TooLowPrice 50000 (lit "l"); CantGetEnergy (lit "l")] /\
  option_map House.cost
    (record_of (extract (default_config (lit "u"))
                        (euro :: lit " 150.000") (lit "l")))
  = Some (PyStr (lit "150000")) /\
  PyStr (lit "150000") <> PyInt 150000.
Proof.
  repeat split; try reflexivity; discriminate.
Qed.

(** ** Floor: the ground-floor phrase and the unused sentinel *)

(** C7.  In the record of a text with "piano terra" the floor is 1
    whatever the floor patterns found, and [ultimo] is the test for
    "ultimo" alone. *)
Theorem ground_floor_is_1 (self : Immobiliare) (t sub_url : text)
    (house : House.t) (msgs : list log_msg) :
  contains (lit "piano terra") t = true ->
  extract self t sub_url = Ok (house, msgs) ->
  House.floor house = PyInt 1 /\
  House.ultimo house = contains (lit "ultimo") t.
Proof.
  intros Hpt Hex.
  destruct (extract_record _ _ _ _ _ Hex) as [cost [log_cost [_ [-> _]]]].
  simpl. unfold extract_floor. rewrite Hpt. split; reflexivity.
Qed.

Lemma ground_floor_is_1_witness :
  exists house msgs,
    extract (default_config (lit "u"))
            (lit "appartamento al piano terra di 3 piani, ultimo prezzo")
            (lit "l") = Ok (house, msgs) /\
    _extract_pattern
      (lit "appartamento al piano terra di 3 piani, ultimo prezzo")
      floor_patterns = Some (lit "3") /\
    House.floor house = PyInt 1 /\
    House.ultimo house =
      contains (lit "ultimo")
               (lit "appartamento al piano terra di 3 piani, ultimo prezzo").
Proof.
  eexists. eexists. split; [reflexivity|]. split; [reflexivity|].
  eapply (ground_floor_is_1 (default_config (lit "u"))
           (lit "appartamento al piano terra di 3 piani, ultimo prezzo")
           (lit "l")); reflexivity.
Defined.

(** C10.  With no floor pattern matching and no "piano terra", the floor
    field of the record is [None], and the whole result is the same for
    every value of [floor_not_found]. *)
Theorem floor_is_None_without_match (self : Immobiliare) (t sub_url : text)
    (house : House.t) (msgs : list log_msg) :
  _extract_pattern t floor_patterns = None ->
  contains (lit "piano terra") t = false ->
  extract self t sub_url = Ok (house, msgs) ->
  House.floor house = PyNone /\
  forall v, extract (with_floor_not_found v self) t sub_url
            = Ok (house, msgs).
Proof.
  intros Hno Hpt Hex. split.
  - destruct (extract_record _ _ _ _ _ Hex) as [cost [log_cost [_ [-> _]]]].
    simpl. unfold extract_floor. rewrite Hno, Hpt. reflexivity.
  - intros v. rewrite <- Hex. reflexivity.
Qed.

Lemma floor_is_None_without_match_witness :
  exists house msgs,
    extract (default_config (lit "u"))
            (lit "bilocale superficie 50 m") (lit "l") = Ok (house, msgs) /\
    House.floor house = PyNone /\
    forall v, extract (with_floor_not_found v (default_config (lit "u")))
                      (lit "bilocale superficie 50 m") (lit "l")
              = Ok (house, msgs).
Proof.
  eexists. eexists. split; [reflexivity|].
  eapply (floor_is_None_without_match (default_config (lit "u"))
           (lit "bilocale superficie 50 m") (lit "l")); reflexivity.
Defined.

(** ** Which fields can be [None] *)




(** ** Price per area *)

Lemma truediv_by_zero (c : Z) : truediv c 0 = Raise ZeroDivisionError.
Proof. reflexivity. Qed.

(** The price per area in terms of the two numbers [int] yields. *)
Lemma price_per_area_by_numbers (self : Immobiliare) (t sub_url : text)
    (house : House.t) (msgs : list log_msg) :
  extract self t sub_url = Ok (house, msgs) ->
  House.price_per_area house =
    match cost_number self t with
    | Some c =>
        match bind_r (truediv c (area_number self t)) round1 with
        | Ok f => PyFloat f
        | Raise _ => PyInt (invalid_price_per_area self)
        end
    | None => PyInt (invalid_price_per_area self)
    end.
Proof.
  intros Hex.
  destruct (extract_record _ _ _ _ _ Hex) as [cost [log_cost [Hc [-> _]]]].
  cbn [House.price_per_area].
  assert (Harea : int (extract_area self t) = Ok (area_number self t)).
  { unfold extract_area, area_number.
    destruct (_extract_pattern t [area_pattern]) as [g|] eqn:Ea;
      [|reflexivity].
    refine (int_of_digit_group t g area_pattern 4 eq_refl _ Ea).
    unfold max_str_digits. lia. }
  unfold compute_price_per_area, cost_number.
  destruct (_extract_pattern t cost_patterns) as [g|] eqn:Eg.
  - pose proof (extract_cost_returned self _ _ _ _ _ Eg Hc) as Hlim.
    rewrite (extract_cost_matched self _ sub_url _ Eg Hlim) in Hc.
    destruct (parsed_price g <? min_house_cost self)%Z;
      inversion Hc; subst; [reflexivity|].
    cbn [int]. rewrite (int_of_cost_group _ _ Eg), Hlim. cbn [bind_r].
    rewrite Harea. reflexivity.
  - rewrite (extract_cost_unmatched self _ sub_url Eg) in Hc.
    inversion Hc; subst. cbn [int].
    destruct (int_of_float (price_not_found self)); [|reflexivity].
    cbn [bind_r]. rewrite Harea. reflexivity.
Qed.

(** C5, as the code has it.  In every record the field is
    [round(c / a, 1)] when [int] yields [c] for the cost and [a] for the
    area, parsed or configured, and the quotient is a float ([a] is not
    zero and the quotient is in range); in every other case it is
    [invalid_price_per_area]: what lines 141 to 144 raise is caught. *)
Theorem price_per_area_value (self : Immobiliare) (t sub_url : text)
    (house : House.t) (msgs : list log_msg) :
  extract self t sub_url = Ok (house, msgs) ->
  House.price_per_area house =
    match cost_number self t with
    | Some c =>
        match bind_r (truediv c (area_number self t)) round1 with
        | Ok f => PyFloat f
        | Raise _ => PyInt (invalid_price_per_area self)
        end
    | None => PyInt (invalid_price_per_area self)
    end.
Proof. exact (price_per_area_by_numbers self t sub_url house msgs). Qed.

Lemma price_per_area_value_witness :
  exists house msgs,
    extract (default_config (lit "u"))
            (euro :: lit " 200.000 superficie 3 m") (lit "l")
      = Ok (house, msgs) /\
    cost_number (default_config (lit "u"))
                (euro :: lit " 200.000 superficie 3 m") = Some 200000%Z /\
    area_number (default_config (lit "u"))
                (euro :: lit " 200.000 superficie 3 m") = 3%Z /\
    House.price_per_area house =
      match cost_number (default_config (lit "u"))
                        (euro :: lit " 200.000 superficie 3 m") with
      | Some c =>
          match bind_r (truediv c
                          (area_number (default_config (lit "u"))
                             (euro :: lit " 200.000 superficie 3 m")))
                       round1 with
          | Ok f => PyFloat f
          | Raise _ => PyInt (invalid_price_per_area (default_config (lit "u")))
          end
      | None => PyInt (invalid_price_per_area (default_config (lit "u")))
      end.
Proof.
  eexists. eexists. split; [reflexivity|].
  split; [reflexivity|]. split; [reflexivity|].
  eapply (price_per_area_value (default_config (lit "u"))
           (euro :: lit " 200.000 superficie 3 m") (lit "l")).
  reflexivity.
Defined.

(** With the default [price_not_found] (NaN) and [area_not_found] (0), a
    price or an area that was not found gives [invalid_price_per_area]. *)
Lemma default_sentinels_give_invalid (self : Immobiliare) (t sub_url : text)
    (house : House.t) (msgs : list log_msg) :
  price_not_found self = nan ->
  area_not_found self = 0%Z ->
  _extract_pattern t cost_patterns = None \/
  _extract_pattern t [area_pattern] = None ->
  extract self t sub_url = Ok (house, msgs) ->
  House.price_per_area house = PyInt (invalid_price_per_area self).
Proof.
  intros Hp Ha Hcase Hex.
  rewrite (price_per_area_by_numbers self t sub_url house msgs Hex).
  destruct Hcase as [Hc | Har].
  - unfold cost_number. rewrite Hc, Hp. reflexivity.
  - unfold area_number. rewrite Har, Ha.
    destruct (cost_number self t); reflexivity.
Qed.

(** The cases of C5 that hold as stated: 150000 over 50 is 3000.0; a
    parsed area of zero, a price that was rejected and, with the default
    [price_not_found] (NaN), a price that was not found all give
    [invalid_price_per_area]. *)
Lemma price_per_area_examples :
  option_map House.price_per_area
    (record_of (extract (default_config (lit "u"))
                        (euro :: lit " 150.000 superficie 50 m") (lit "l")))
  = Some (PyFloat (float_of_Z 3000)) /\
  option_map House.price_per_area
    (record_of (extract (default_config (lit "u"))
                        (euro :: lit " 150.000 superficie 0 m") (lit "l")))
  = Some (PyInt 0) /\
  option_map House.price_per_area
    (record_of (extract (default_config (lit "u"))
                        (lit "superficie 50 m") (lit "l")))
  = Some (PyInt 0) /\
  option_map House.price_per_area
    (record_of (extract (with_min_house_cost 200000 (default_config (lit "u")))
                        (euro :: lit " 150.000 superficie 50 m") (lit "l")))
  = Some (PyInt 0).
Proof. repeat split; reflexivity. Qed.

(** C5 as stated fails when a configured value is itself a number the
    division accepts: with [area_not_found=1], "€ 150.000" and no area in
    the text give 150000.0, not [invalid_price_per_area]. *)
Lemma configured_area_is_divided_by :
  _extract_pattern (euro :: lit " 150.000") [area_pattern] = None /\
  option_map House.area
    (record_of (extract (with_area_not_found 1 (default_config (lit "u")))
                        (euro :: lit " 150.000") (lit "l")))
  = Some (PyInt (area_not_found
                   (with_area_not_found 1 (default_config (lit "u"))))) /\
  option_map House.price_per_area
    (record_of (extract (with_area_not_found 1 (default_config (lit "u")))
                        (euro :: lit " 150.000") (lit "l")))
  = Some (PyFloat (float_of_Z 150000)) /\
  PyFloat (float_of_Z 150000)
  <> PyInt (invalid_price_per_area
              (with_area_not_found 1 (default_config (lit "u")))).
Proof. repeat split; try reflexivity; discriminate. Qed.

(** ** Energy class: the check on a lowered text *)

Section EnergyFacts.

Lemma lower_char_not_capital (x c : char) :
  In c (lower_char x) -> (c < 65 \/ 90 < c)%N.
Proof.
  unfold lower_char.
  repeat match goal with
         | |- context [if ?b then _ else _] => destruct b eqn:?
         end;
    cbn [In]; intros H;
    repeat match goal with
           | H : _ \/ _ |- _ => destruct H as [H | H]
           | H : False |- _ => destruct H
           end;
    subst;
    repeat match goal with
           | H : andb _ _ = true |- _ =>
               apply andb_prop in H; destruct H
           | H : andb _ _ = false |- _ =>
               apply andb_false_iff in H; destruct H
           | H : N.leb _ _ = true |- _ => apply N.leb_le in H
           | H : N.leb _ _ = false |- _ => apply N.leb_gt in H
           | H : N.eqb _ _ = true |- _ => apply N.eqb_eq in H
           end;
    lia.
Qed.

(** A lowered text has no capital letter of the basic alphabet. *)
Lemma lower_not_capital (s : text) (c : char) :
  In c (lower s) -> (c < 65 \/ 90 < c)%N.
Proof.
  unfold lower. intros H. apply in_flat_map in H.
  destruct H as [x [_ Hx]]. exact (lower_char_not_capital x c Hx).
Qed.

Lemma char_in_A_to_F (c : char) :
  char_in c (lit "ABCDEF") = true -> (65 <= c <= 70)%N.
Proof.
  unfold char_in. intros H. apply existsb_exists in H.
  destruct H as [x [Hx Hc]]. apply N.eqb_eq in Hc. subst x.
  simpl in Hx. repeat (destruct Hx as [<- | Hx]; [lia|]). destruct Hx.
Qed.

(** No candidate taken from a lowered text passes the check of line 120:
    its first character would have to be one of "ABCDEF". *)
Lemma energy_rejected_on_lowered (s : text) (e : text) :
  _extract_pattern (lower s) energy_patterns = Some e ->
  energy_accepted (Some e) = false.
Proof.
  intros H. destruct e as [|c e]; [reflexivity|].
  unfold energy_accepted.
  destruct (char_in c (lit "ABCDEF")) eqn:Hc; [|reflexivity].
  apply char_in_A_to_F in Hc.
  assert (Hin : In c (lower s)).
  { apply (_extract_pattern_chars _ _ _ H). left. reflexivity. }
  apply lower_not_capital in Hin. lia.
Qed.

(** So the energy field of every record [_get_data] builds is
    [energy_not_found]. *)
Lemma energy_is_always_not_found (self : Immobiliare) (s sub_url : text) :
  fst (extract_energy self (lower s) sub_url)
  = PyStr (energy_not_found self).
Proof.
  unfold extract_energy.
  destruct (_extract_pattern (lower s) energy_patterns) as [e|] eqn:E.
  - rewrite (energy_rejected_on_lowered _ _ E).
    destruct (contains (lit "in attesa di certificazione") (lower s));
      reflexivity.
  - destruct (contains (lit "in attesa di certificazione") (lower s));
      reflexivity.
Qed.

End EnergyFacts.

(** ** [_get_data] as a whole *)

Section GetDataFacts.

Variable self : Immobiliare.
Variable web : nat -> text -> response.

Lemma say_all_run (msgs : list log_msg) (st : state) :
  say_all msgs st =
  (Ok tt, {| clock := clock st; requested := requested st;
             logged := rev msgs ++ logged st;
             urls_ := urls_ st; df_ := df_ st |}).
Proof.
  revert st. induction msgs as [|m msgs IH]; intros st.
  - destruct st; reflexivity.
  - cbn [say_all]. unfold bind. cbn [_say]. rewrite IH. cbn.
    rewrite <- app_assoc. reflexivity.
Qed.

Lemma _get_page_run (u : text) (st : state) :
  web (clock st) u <> Failure ->
  _get_page web u st =
  (Ok (response_document (web (clock st) u)),
   after_request st u (timeout_note (web (clock st) u) u)).
Proof.
  intros H. unfold _get_page, after_request.
  destruct (web (clock st) u); [reflexivity | reflexivity | congruence].
Qed.

Lemma _get_page_fails (u : text) (st : state) :
  web (clock st) u = Failure ->
  _get_page web u st = (Raise RequestException, after_request st u []).
Proof.
  intros H. unfold _get_page, after_request. rewrite H. reflexivity.
Qed.

(** [_get_data], outcome by outcome. *)
Lemma _get_data_cases (sub_url : text) (st : state) :
  _get_data self web sub_url st =
  match web (clock st) sub_url with
  | Failure => (Raise RequestException, after_request st sub_url [])
  | r =>
      match extract self (page_text r) sub_url with
      | Ok (house, msgs) =>
          (Ok house,
           after_request st sub_url (timeout_note r sub_url ++ msgs))
      | Raise e => (Raise e, after_request st sub_url (timeout_note r sub_url))
      end
  end.
Proof.
  destruct (web (clock st) sub_url) as [page| |] eqn:Hw.
  - assert (Hok : web (clock st) sub_url <> Failure) by congruence.
    unfold _get_data, _get_text, bind, page_text.
    rewrite (_get_page_run _ _ Hok), Hw.
    cbn [ret response_document timeout_note].
    match goal with
    | |- context [extract self ?t sub_url] =>
        destruct (extract self t sub_url) as [[house msgs]|e]
    end; [|reflexivity].
    rewrite say_all_run. unfold after_request. reflexivity.
  - assert (Hok : web (clock st) sub_url <> Failure) by congruence.
    unfold _get_data, _get_text, bind, page_text.
    rewrite (_get_page_run _ _ Hok), Hw.
    cbn [ret response_document timeout_note].
    match goal with
    | |- context [extract self ?t sub_url] =>
        destruct (extract self t sub_url) as [[house msgs]|e]
    end; [|reflexivity].
    rewrite say_all_run. unfold after_request. cbn.
    rewrite <- app_assoc. reflexivity.
  - unfold _get_data, _get_text, bind.
    rewrite (_get_page_fails _ _ Hw). reflexivity.
Qed.




End GetDataFacts.

(** C3, at the input where the code departs from it.  A page that reads
    "Classe energetica B+ ..." is lowered, "b+" is captured, and the check
    against "ABCDEF" rejects it: the energy field is "n/a" and the failure
    is logged. *)
Theorem energy_b_plus_is_rejected :
  _extract_pattern
    (page_text (one_page (lit "Classe energetica B+ riscaldamento autonomo")
                         0 (lit "l")))
    energy_patterns = Some (lit "b+") /\
  fst (_get_data (default_config (lit "u"))
         (one_page (lit "Classe energetica B+ riscaldamento autonomo"))
         (lit "l") initial_state)
  = Ok (House.mk (PyFloat nan) (PyInt 0) PyNone (PyInt 0) false (lit "l")
                 (PyStr (lit "n/a")) (PyInt 0)) /\
  log (snd (_get_data (default_config (lit "u"))
              (one_page (lit "Classe energetica B+ riscaldamento autonomo"))
              (lit "l") initial_state))
  = [CantGetPrice (lit "l"); CantGetEnergy (lit "l")].
Proof. repeat split; reflexivity. Qed.

(** The other half of C3 holds: "energetica z9" is not found either. *)
Lemma energy_z9_is_rejected :
  option_map House.energy
    (record_of (extract (default_config (lit "u"))
                        (lit "classe energetica z9 ") (lit "l")))
  = Some (PyStr (lit "n/a")) /\
  messages_of (extract (default_config (lit "u"))
                       (lit "classe energetica z9 ") (lit "l"))
  = [CantGetPrice (lit "l"); CantGetEnergy (lit "l")].
Proof. split; reflexivity. Qed.

(** ** Page addresses *)

Section PageUrls.

Lemma lit_inj (a b : string) : lit a = lit b -> a = b.
Proof.
  unfold lit. intros H.
  rewrite <- (string_of_list_ascii_of_string a),
          <- (string_of_list_ascii_of_string b).
  f_equal. revert H.
  generalize (list_ascii_of_string a) (list_ascii_of_string b).
  induction l as [|x l IH]; intros [|y l'] H; simpl in H;
    try discriminate; [reflexivity|].
  inversion H as [[Hxy Hl]]. f_equal; [|exact (IH _ Hl)].
  rewrite <- (ascii_N_embedding x), <- (ascii_N_embedding y), Hxy.
  reflexivity.
Qed.

Lemma of_nat_inj (i j : nat) : of_nat i = of_nat j -> i = j.
Proof.
  unfold of_nat. intros H. apply lit_inj in H.
  apply DecimalNat.Unsigned.to_uint_inj.
  assert (Hu : Some (Nat.to_uint i) = Some (Nat.to_uint j)).
  { rewrite <- (NilEmpty.usu (Nat.to_uint i)),
            <- (NilEmpty.usu (Nat.to_uint j)), H. reflexivity. }
  inversion Hu. reflexivity.
Qed.

Variable self : Immobiliare.

Lemma page_url_inj (i j : nat) : page_url self i = page_url self j -> i = j.
Proof.
  unfold page_url. intros H.
  apply app_inv_head in H. apply app_inv_head in H.
  exact (of_nat_inj _ _ H).
Qed.

Lemma page_url_not_first (i : nat) : page_url self i <> url self.
Proof.
  unfold page_url. intros H.
  rewrite <- (app_nil_r (url self)) in H at 2.
  apply app_inv_head in H. discriminate.
Qed.

End PageUrls.

(** ** Discovery on a site that answers the same to the same address *)

Lemma page_range_seq : page_range = seq 2 (last_page - 1).
Proof.
  unfold page_range, range, last_page. f_equal; lia.
Qed.

Section StaticSite.

Variable self : Immobiliare.

Variable site : text -> response.



End StaticSite.

(** [get_all_urls] returns nothing: it leaves the list in [urls_]. *)
Lemma get_all_urls_of_discover (self : Immobiliare)
    (web : nat -> text -> response) (st st' : state) (found : list text) :
  discover self web st = (Ok found, st') ->
  get_all_urls self web st = (Ok tt, st').
Proof.
  intros H. unfold get_all_urls, bind. rewrite H. reflexivity.
Qed.

Lemma get_all_urls_state (self : Immobiliare)
    (web : nat -> text -> response) (st : state) :
  snd (get_all_urls self web st) = snd (discover self web st).
Proof.
  unfold get_all_urls, bind.
  destruct (discover self web st) as [[found|e] st']; reflexivity.
Qed.

Section FirstMissingPage.

Variable self : Immobiliare.
Variable site : text -> response.



End FirstMissingPage.




Example three_pages_links :
  links_before (default_config (lit "https://www.immobiliare.it/search?c=1"))
    (three_pages (default_config (lit "https://www.immobiliare.it/search?c=1"))) 3
  = [lit "https://www.immobiliare.it/annunci/101/";
     lit "https://www.immobiliare.it/annunci/102/"].
Proof. vm_compute. reflexivity. Qed.

(** ** The ceiling of the loop *)

Section Ceiling.

Variable self : Immobiliare.



End Ceiling.


(** ** Discovery on any site *)

Section AnySite.

Variable self : Immobiliare.
Variable web : nat -> text -> response.

Lemma _get_page_requested (u : text) (st : state) :
  requested (snd (_get_page web u st)) = u :: requested st.
Proof.
  unfold _get_page. destruct (web (clock st) u); reflexivity.
Qed.

(** Whatever the site answers, the loop asks only for pages of its range,
    each at most twice. *)
Lemma browse_requested (pages : list nat) :
  forall (found : list text) (st : state),
  exists new,
    requested (snd (browse self web pages found st)) = rev new ++ requested st /\
    Forall (fun u => exists i, In i pages /\ u = page_url self i) new /\
    length new <= 2 * length pages.
Proof.
  induction pages as [|i pages IH]; intros found st.
  - exists []. cbn. auto.
  - cbn [browse]. unfold bind at 1. cbn [_say].
    unfold bind at 1. unfold _get_text at 1. unfold bind at 1.
    match goal with
    | |- context [_get_page web ?u ?s] =>
        pose proof (_get_page_requested u s) as H1;
        destruct (_get_page web u s) as [[page|e] s1]
    end; cbn [snd requested] in H1.
    + cbn [ret].
      destruct (is_last_page (lower (normalize_spaces (doc_text page)))).
      * exists [page_url self i]. cbn [ret snd rev app length]. rewrite H1.
        split; [reflexivity|]. split; [|lia].
        constructor; [|constructor]. exists i. split; [left|]; reflexivity.
      * unfold bind at 1.
        match goal with
        | |- context [_get_page web ?u ?s] =>
            pose proof (_get_page_requested u s) as H2;
            destruct (_get_page web u s) as [[page2|e] s2]
        end; cbn [snd] in H2.
        -- destruct (IH (found ++ listing_links (doc_hrefs page2)) s2)
             as [new [Hr [Hall Hlen]]].
           exists (page_url self i :: page_url self i :: new).
           rewrite Hr, H2, H1. cbn [rev length]. rewrite <- !app_assoc.
           split; [reflexivity|]. split; [|lia].
           constructor; [exists i; split; [left|]; reflexivity|].
           constructor; [exists i; split; [left|]; reflexivity|].
           apply Forall_impl with (2 := Hall).
           intros u [j [Hj Hu]]. exists j. split; [right|]; assumption.
        -- exists [page_url self i; page_url self i].
           cbn [snd rev app length]. rewrite H2, H1.
           split; [reflexivity|]. split; [|lia].
           constructor; [exists i; split; [left|]; reflexivity|].
           constructor; [exists i; split; [left|]; reflexivity|].
           constructor.
    + exists [page_url self i]. cbn [snd rev app length]. rewrite H1.
      split; [reflexivity|]. split; [|lia].
      constructor; [|constructor]. exists i. split; [left|]; reflexivity.
Qed.

Lemma discover_requested (st : state) :
  exists new,
    requested (snd (discover self web st)) = rev new ++ requested st /\
    Forall (fun u => exists i, 1 <= i <= last_page /\ u = page_address self i)
           new /\
    length new <= 2 * last_page - 1.
Proof.
  assert (Hlast : 2 <= last_page) by (unfold last_page; lia).
  assert (Hfirst : exists i, 1 <= i <= last_page /\ url self = page_address self i).
  { exists 1. split; [lia | reflexivity]. }
  unfold discover. unfold bind at 1. cbn [_say]. unfold bind at 1.
  match goal with
  | |- context [_get_page web ?u ?s] =>
      pose proof (_get_page_requested u s) as H1;
      destruct (_get_page web u s) as [[page|e] s1]
  end; cbn [snd requested] in H1.
  - unfold bind at 1. destruct (browse_all_pages self).
    + destruct (browse_requested page_range
                  (listing_links (doc_hrefs page)) s1)
        as [new [Hr [Hall Hlen]]].
      exists (url self :: new).
      assert (Hnew : Forall (fun u => exists i, 1 <= i <= last_page /\
                                                u = page_address self i)
                            (url self :: new)).
      { constructor; [exact Hfirst|].
        apply Forall_impl with (2 := Hall).
        intros u [j [Hj Hu]]. rewrite page_range_seq in Hj.
        apply in_seq in Hj. exists j. split; [lia|].
        unfold page_address.
        replace (j =? 1) with false by (symmetry; apply Nat.eqb_neq; lia).
        exact Hu. }
      assert (Hcount : length (url self :: new) <= 2 * last_page - 1).
      { rewrite page_range_seq, length_seq in Hlen. cbn [length]. lia. }
      destruct (browse self web page_range
                  (listing_links (doc_hrefs page)) s1) as [[found|e] s2];
        cbn [snd] in Hr; cbn [snd set_urls_ _say bind ret requested];
        rewrite Hr, H1; cbn [rev]; rewrite <- app_assoc; auto.
    + exists [url self]. cbn [ret snd set_urls_ _say bind requested].
      rewrite H1. cbn [rev app length].
      split; [reflexivity|]. split; [|lia]. constructor; [exact Hfirst|].
      constructor.
  - exists [url self]. cbn [snd]. rewrite H1. cbn [rev app length].
    split; [reflexivity|]. split; [|lia]. constructor; [exact Hfirst|].
    constructor.
Qed.

End AnySite.

(** C8.  On every site, whatever it answers, [get_all_urls] returns or
    raises after asking only for pages 1 to 9999: at most 9999 different
    pages, in at most 19997 requests (a page after the first is read
    twice, once for its text and once for its links).  The loop runs over
    the list [range(2, 10_000)], so it ends. *)
Theorem discovery_visits_at_most_9999_pages
    (self : Immobiliare) (web : nat -> text -> response) (st : state) :
  exists new,
    requests (snd (get_all_urls self web st)) = requests st ++ new /\
    Forall (fun u => exists i, 1 <= i <= last_page /\ u = page_address self i)
           new /\
    length (nodup text_eq_dec new) <= last_page /\
    length new <= 2 * last_page - 1.
Proof.
  destruct (discover_requested self web st) as [new [Hr [Hall Hlen]]].
  exists new. rewrite get_all_urls_state.
  split; [|split; [exact Hall|split; [|exact Hlen]]].
  - unfold requests. rewrite Hr, rev_app_distr, rev_involutive. reflexivity.
  - assert (Hincl : incl (nodup text_eq_dec new)
                         (map (page_address self) (seq 1 last_page))).
    { intros u Hu. apply nodup_In in Hu.
      rewrite Forall_forall in Hall. destruct (Hall u Hu) as [i [Hi ->]].
      apply in_map. apply in_seq. lia. }
    apply NoDup_incl_length in Hincl; [|apply NoDup_nodup].
    rewrite length_map, length_seq in Hincl. exact Hincl.
Qed.

Example last_page_is_9999 : N.of_nat last_page = 9999%N.
Proof. unfold last_page. lia. Qed.

(** ** The pool *)

Section Pool.

Variable self : Immobiliare.
Variable web : nat -> text -> response.
Variable s : schedule.





End Pool.



(** The schedule of that run is one ten workers can produce on twenty
    tasks. *)
Example ten_by_ten_is_a_pool_schedule : pool_schedule 20 ten_by_ten.
Proof.
  intros i Hi. unfold max_workers. cbn [ticket ten_by_ten].
  destruct (Nat.ltb_spec i 10); lia.
Qed.


(** ** A listing that makes [_get_data] raise *)

(** C6, at an input where the code departs from it.  The page of the
    second of three listings shows a price of 4301 digits.  [int(cost)] on
    line 86, outside any [try], raises [ValueError]: [_get_data] raises
    it before any message of its blocks, and [find_all_houses] raises it
    and stores no [df_], although the pages of the three listings were
    requested. *)
Theorem long_price_aborts_the_crawl :
  price_is_read
    (page_text (long_price_site (lit "https://x/annunci/2/") 0
                  (lit "https://x/annunci/2/"))) = false /\
  _get_data (default_config (lit "u"))
    (long_price_site (lit "https://x/annunci/2/"))
    (lit "https://x/annunci/2/") initial_state
  = (Raise ValueError,
     {| clock := 1; requested := [lit "https://x/annunci/2/"]; logged := [];
        urls_ := None; df_ := None |}) /\
  fst (find_all_houses (default_config (lit "u"))
         (long_price_site (lit "https://x/annunci/2/")) (in_order 1)
         (after_discovery [lit "https://x/annunci/1/"; lit "https://x/annunci/2/";
                           lit "https://x/annunci/3/"]))
  = Raise ValueError /\
  requests (snd (find_all_houses (default_config (lit "u"))
                   (long_price_site (lit "https://x/annunci/2/")) (in_order 1)
                   (after_discovery
                      [lit "https://x/annunci/1/"; lit "https://x/annunci/2/";
                       lit "https://x/annunci/3/"])))
  = [lit "https://x/annunci/1/"; lit "https://x/annunci/2/";
     lit "https://x/annunci/3/"] /\
  df_ (snd (find_all_houses (default_config (lit "u"))
              (long_price_site (lit "https://x/annunci/2/")) (in_order 1)
              (after_discovery
                 [lit "https://x/annunci/1/"; lit "https://x/annunci/2/";
                  lit "https://x/annunci/3/"])))
  = None.
Proof.
  split; [vm_compute; reflexivity|].
  split; [vm_compute; reflexivity|].
  split; [vm_compute; reflexivity|].
  split; vm_compute; reflexivity.
Qed.

(** The timeout part of C6 also departs from it when the configured
    values are numbers: with [price_not_found=-1] and [area_not_found=-1],
    a listing whose request times out gets the price per area 1.0, which
    is not [invalid_price_per_area]; and its floor is [None]. *)
Example timeout_divides_the_configured_values :
  fst (_get_data
         (with_price_not_found (float_of_Z (-1))
            (with_area_not_found (-1) (default_config (lit "u"))))
         silent_site (lit "l") initial_state)
  = Ok (House.mk (PyFloat (float_of_Z (-1))) (PyFloat (float_of_Z 1)) PyNone
                 (PyInt (-1)) false (lit "l") (PyStr (lit "n/a")) (PyInt 0)) /\
  PyFloat (float_of_Z 1)
  <> PyInt (invalid_price_per_area
              (with_price_not_found (float_of_Z (-1))
                 (with_area_not_found (-1) (default_config (lit "u"))))).
Proof. split; [reflexivity | discriminate]. Qed.

(** * Further properties of the code *)

(** ** [_extract_pattern]: priority and provenance *)

Section PatternFacts.

Lemma search_substring (p : pattern) (s g : text) :
  search p s = Some g -> is_substring g s.
Proof.
  unfold search. intros H.
  destruct (search_items (items p) s) as [pieces|] eqn:E; [|discriminate].
  simpl in H. inversion H; subst. clear H.
  apply search_items_sound in E. destruct E as [_ [before [after Hs]]].
  exists (before ++ concat (firstn (length (pre p)) pieces)),
         (concat (skipn (length (grp p)) (skipn (length (pre p)) pieces))
          ++ after).
  rewrite Hs.
  rewrite <- (firstn_skipn (length (pre p)) pieces) at 1.
  rewrite <- (firstn_skipn (length (grp p))
                (skipn (length (pre p)) pieces)) at 1.
  rewrite !concat_app, <- !app_assoc. reflexivity.
Qed.

(** X1.  [_extract_pattern] returns the group of the first pattern of the
    tuple that matches somewhere, whatever later patterns would find and
    wherever they would find it; the group is a run of consecutive
    characters of the text.  It returns [None] only when no pattern
    matches. *)
Theorem _extract_pattern_first_match (t : text) (patterns : list pattern) :
  match _extract_pattern t patterns with
  | Some g =>
      is_substring g t /\
      exists earlier p later,
        patterns = earlier ++ p :: later /\
        search p t = Some g /\
        Forall (fun q => search q t = None) earlier
  | None => Forall (fun q => search q t = None) patterns
  end.
Proof.
  induction patterns as [|p ps IH]; cbn [_extract_pattern].
  - constructor.
  - destruct (search p t) as [g|] eqn:E.
    + split; [exact (search_substring _ _ _ E)|].
      exists [], p, ps. repeat split; auto.
    + destruct (_extract_pattern t ps) as [g|].
      * destruct IH as [Hsub [earlier [q [later [Hps [Hq Hall]]]]]].
        split; [exact Hsub|].
        exists (p :: earlier), q, later. rewrite Hps.
        repeat split; auto.
      * constructor; assumption.
Qed.

End PatternFacts.

(** ** The numbers in the fields *)

Section DigitFacts.

Arguments is_digit : simpl never.

Lemma digit_value_range (c : char) : (0 <= digit_value c <= 9)%Z.
Proof.
  unfold digit_value.
  destruct (find (in_run c) decimal_zeros) as [z|] eqn:E; [|lia].
  apply find_some in E. destruct E as [_ Hrun].
  unfold in_run in Hrun. apply andb_prop in Hrun. destruct Hrun as [H1 H2].
  apply N.leb_le in H1. apply N.ltb_lt in H2. lia.
Qed.

Lemma fold_digits_range (d : text) :
  forall acc : Z,
    (0 <= acc)%Z ->
    (acc * 10 ^ Z.of_nat (length d)
     <= fold_left (fun a c => 10 * a + digit_value c) d acc
     < (acc + 1) * 10 ^ Z.of_nat (length d))%Z.
Proof.
  induction d as [|c d IH]; intros acc Hacc.
  - cbn [fold_left length]. change (10 ^ Z.of_nat 0)%Z with 1%Z. lia.
  - cbn [fold_left length]. pose proof (digit_value_range c) as Hc.
    specialize (IH (10 * acc + digit_value c)%Z ltac:(lia)).
    rewrite Nat2Z.inj_succ, Z.pow_succ_r by lia.
    assert (Hp : (0 < 10 ^ Z.of_nat (length d))%Z)
      by (apply Z.pow_pos_nonneg; lia).
    nia.
Qed.

(** A string of at most [n] digits reads as a number below [10 ^ n]. *)
Lemma int_of_digits_range (d : text) (n : nat) :
  length d <= n ->
  (0 <= int_of_digits d < 10 ^ Z.of_nat n)%Z.
Proof.
  intros Hlen. unfold int_of_digits.
  pose proof (fold_digits_range d 0%Z ltac:(lia)) as H.
  assert (Hmono : (10 ^ Z.of_nat (length d) <= 10 ^ Z.of_nat n)%Z)
    by (apply Z.pow_le_mono_r; lia).
  assert (Hp : (0 < 10 ^ Z.of_nat (length d))%Z)
    by (apply Z.pow_pos_nonneg; lia).
  lia.
Qed.

(** What a pattern whose group is [\d{1,hi}] captures. *)
Lemma digit_group_shape (t g : text) (p : pattern) (hi : nat) :
  grp p = [rng Digit 1 hi] ->
  search p t = Some g ->
  digit_string g /\ length g <= hi.
Proof.
  intros Hgrp Hs.
  apply search_sound in Hs. destruct Hs as [[pieces [Hall ->]] _].
  rewrite Hgrp in Hall.
  inversion Hall as [|it piece its ps Hok Hrest]; subst.
  inversion Hrest; subst. simpl in Hok. destruct Hok as [Hcls [Hlen Hhi]].
  simpl. rewrite app_nil_r.
  split; [split|exact Hhi].
  - destruct piece; [simpl in Hlen; lia | discriminate].
  - exact Hcls.
Qed.

Lemma digit_groups_shape (t g : text) (patterns : list pattern) (hi : nat) :
  Forall (fun p => grp p = [rng Digit 1 hi]) patterns ->
  _extract_pattern t patterns = Some g ->
  digit_string g /\ length g <= hi.
Proof.
  intros Hall H. apply _extract_pattern_sound in H.
  destruct H as [p [Hp Hs]]. rewrite Forall_forall in Hall.
  exact (digit_group_shape t g p hi (Hall p Hp) Hs).
Qed.

Lemma int_of_digit_string (d : text) :
  digit_string d -> within_limit d = true ->
  int (PyStr d) = Ok (int_of_digits d).
Proof.
  intros [Hne Hdig] Hlim. cbn [int]. unfold int_of_text.
  destruct d as [|c d]; [destruct (Hne eq_refl)|].
  rewrite Hdig, Hlim. reflexivity.
Qed.

Lemma short_within_limit (d : text) (hi : nat) :
  length d <= hi -> (N.of_nat hi <= max_str_digits)%N ->
  within_limit d = true.
Proof.
  intros Hlen Hhi. unfold within_limit. apply N.leb_le. lia.
Qed.

End DigitFacts.

Section FieldShapes.

Variable self : Immobiliare.

Lemma parsed_price_nonneg (g : text) : (0 <= parsed_price g)%Z.
Proof.
  unfold parsed_price.
  exact (proj1 (int_of_digits_range (remove_dots g) _ (Nat.le_refl _))).
Qed.

Lemma cost_group_is_digit_string (t g : text) :
  _extract_pattern t cost_patterns = Some g -> digit_string (remove_dots g).
Proof.
  intros H. destruct (cost_group_shape _ _ H) as [_ [[c [rest Hne]] Hdig]].
  split; [rewrite Hne; discriminate | exact Hdig].
Qed.

Lemma digits_up_to_of_group (t g : text) (patterns : list pattern) (hi : nat) :
  Forall (fun p => grp p = [rng Digit 1 hi]) patterns ->
  (N.of_nat hi <= max_str_digits)%N ->
  _extract_pattern t patterns = Some g ->
  digits_up_to (10 ^ Z.of_nat hi - 1) (PyStr g).
Proof.
  intros Hall Hhi H.
  destruct (digit_groups_shape t g patterns hi Hall H) as [Hd Hlen].
  exists g. split; [reflexivity|]. split; [exact Hd|].
  split; [exact (int_of_digit_string g Hd (short_within_limit g hi Hlen Hhi))|].
  pose proof (int_of_digits_range g hi Hlen). lia.
Qed.

End FieldShapes.

(** X2.  The cost field of every record is [None], the configured
    [price_not_found], or a non-empty string of at most [max_str_digits]
    digits that [int] reads as a number that is at least [min_house_cost]
    and not negative. *)
Theorem cost_field_shape (self : Immobiliare) (t sub_url : text)
    (house : House.t) (msgs : list log_msg) :
  extract self t sub_url = Ok (house, msgs) ->
  House.cost house = PyNone \/
  House.cost house = PyFloat (price_not_found self) \/
  exists d, House.cost house = PyStr d /\ digit_string d /\
            within_limit d = true /\
            int (House.cost house) = Ok (int_of_digits d) /\
            (min_house_cost self <= int_of_digits d)%Z /\
            (0 <= int_of_digits d)%Z.
Proof.
  intros Hex.
  destruct (extract_record _ _ _ _ _ Hex) as [cost [log_cost [Hc [-> _]]]].
  cbn [House.cost].
  destruct (_extract_pattern t cost_patterns) as [g|] eqn:Eg.
  - pose proof (extract_cost_returned self _ _ _ _ _ Eg Hc) as Hlim.
    rewrite (extract_cost_matched self _ sub_url _ Eg Hlim) in Hc.
    destruct (Z.ltb_spec (parsed_price g) (min_house_cost self)) as [Hlt|Hge];
      inversion Hc; subst; [left; reflexivity|].
    right. right. exists (remove_dots g).
    pose proof (cost_group_is_digit_string _ _ Eg) as Hd.
    split; [reflexivity|]. split; [exact Hd|]. split; [exact Hlim|].
    split; [exact (int_of_digit_string _ Hd Hlim)|].
    split; [exact Hge | exact (parsed_price_nonneg g)].
  - rewrite (extract_cost_unmatched self _ sub_url Eg) in Hc.
    inversion Hc; subst. right. left. reflexivity.
Qed.

Lemma cost_field_shape_witness :
  exists house msgs,
    extract (default_config (lit "u")) (euro :: lit " 1.250.000") (lit "l")
      = Ok (house, msgs) /\
    (House.cost house = PyNone \/
     House.cost house = PyFloat (price_not_found (default_config (lit "u"))) \/
     exists d, House.cost house = PyStr d /\ digit_string d /\
               within_limit d = true /\
               int (House.cost house) = Ok (int_of_digits d) /\
               (min_house_cost (default_config (lit "u")) <= int_of_digits d)%Z /\
               (0 <= int_of_digits d)%Z).
Proof.
  eexists. eexists. split; [reflexivity|].
  eapply (cost_field_shape (default_config (lit "u"))
            (euro :: lit " 1.250.000") (lit "l")).
  reflexivity.
Defined.

(** X3.  With a [min_house_cost] of zero or less no price is rejected:
    the cost field of a record is never [None] and the rejection is never
    among its messages. *)
Theorem no_rejection_without_floor (self : Immobiliare) (t sub_url : text)
    (house : House.t) (msgs : list log_msg) :
  (min_house_cost self <= 0)%Z ->
  extract self t sub_url = Ok (house, msgs) ->
  House.cost house <> PyNone /\
  forall n, ~ In (TooLowPrice n sub_url) msgs.
Proof.
  intros Hmin Hex.
  destruct (extract_record _ _ _ _ _ Hex) as [cost [log_cost [Hc [-> ->]]]].
  cbn [House.cost].
  assert (Hother : forall n, ~ In (TooLowPrice n sub_url)
                        (snd (extract_energy self t sub_url)
                         ++ snd (extract_car self t sub_url))).
  { intros n Hin. apply in_app_or in Hin. destruct Hin as [Hin | Hin].
    - apply energy_messages in Hin. destruct Hin; discriminate.
    - apply car_messages in Hin. discriminate. }
  destruct (_extract_pattern t cost_patterns) as [g|] eqn:Eg.
  - pose proof (extract_cost_returned self _ _ _ _ _ Eg Hc) as Hlim.
    rewrite (extract_cost_matched self _ sub_url _ Eg Hlim) in Hc.
    pose proof (parsed_price_nonneg g) as Hg.
    destruct (Z.ltb_spec (parsed_price g) (min_house_cost self)) as [Hlt|Hge];
      [lia|].
    inversion Hc; subst. split; [discriminate|].
    intros n Hin. exact (Hother n Hin).
  - rewrite (extract_cost_unmatched self _ sub_url Eg) in Hc.
    inversion Hc; subst. split; [discriminate|].
    intros n [Hin | Hin].
    + destruct (contains (lit "prezzo su richiesta") t); discriminate.
    + exact (Hother n Hin).
Qed.

Lemma no_rejection_without_floor_witness :
  exists house msgs,
    extract (with_min_house_cost 0 (default_config (lit "u")))
            (euro :: lit " 0.001") (lit "l") = Ok (house, msgs) /\
    House.cost house <> PyNone /\
    forall n, ~ In (TooLowPrice n (lit "l")) msgs.
Proof.
  eexists. eexists. split; [reflexivity|].
  eapply (no_rejection_without_floor
            (with_min_house_cost 0 (default_config (lit "u")))
            (euro :: lit " 0.001") (lit "l")).
  - cbn. lia.
  - reflexivity.
Defined.

(** X4.  In every record the area field is [area_not_found] or the
    digits of a number from 0 to 9999; the floor field is [None], 1 or
    the digits of a number from 0 to 99; the parking field is
    [car_not_found], 0 or the digits of a number from 0 to 99. *)
Theorem numeric_fields_in_range (self : Immobiliare) (t sub_url : text)
    (house : House.t) (msgs : list log_msg) :
  extract self t sub_url = Ok (house, msgs) ->
  (House.area house = PyInt (area_not_found self) \/
   digits_up_to 9999 (House.area house)) /\
  (House.floor house = PyNone \/ House.floor house = PyInt 1 \/
   digits_up_to 99 (House.floor house)) /\
  (House.posto_auto house = PyInt (car_not_found self) \/
   House.posto_auto house = PyInt 0 \/
   digits_up_to 99 (House.posto_auto house)).
Proof.
  intros Hex.
  assert (H4 : (N.of_nat 4 <= max_str_digits)%N)
    by (unfold max_str_digits; lia).
  assert (H2 : (N.of_nat 2 <= max_str_digits)%N)
    by (unfold max_str_digits; lia).
  destruct (extract_record _ _ _ _ _ Hex) as [cost [log_cost [_ [-> _]]]].
  cbn [House.area House.floor House.posto_auto].
  split; [|split].
  - unfold extract_area.
    destruct (_extract_pattern t [area_pattern]) as [g|] eqn:E;
      [|left; reflexivity].
    right. apply (digits_up_to_of_group t g [area_pattern] 4);
      [repeat constructor | exact H4 | exact E].
  - unfold extract_floor.
    destruct (contains (lit "piano terra") t); [right; left; reflexivity|].
    destruct (_extract_pattern t floor_patterns) as [g|] eqn:E;
      [|left; reflexivity].
    right. right. apply (digits_up_to_of_group t g floor_patterns 2);
      [repeat constructor | exact H2 | exact E].
  - unfold extract_car.
    destruct (_extract_pattern t car_patterns) as [g|] eqn:E.
    + right. right. apply (digits_up_to_of_group t g car_patterns 2);
        [repeat constructor | exact H2 | exact E].
    + destruct (matches car_on_request_pattern t);
        [right; left | left]; reflexivity.
Qed.

Lemma numeric_fields_in_range_witness :
  exists house msgs,
    extract (default_config (lit "u"))
            (lit "piano 12 superficie 1250 m posto auto 2") (lit "l")
      = Ok (house, msgs) /\
    (House.area house = PyInt (area_not_found (default_config (lit "u"))) \/
     digits_up_to 9999 (House.area house)) /\
    (House.floor house = PyNone \/ House.floor house = PyInt 1 \/
     digits_up_to 99 (House.floor house)) /\
    (House.posto_auto house = PyInt (car_not_found (default_config (lit "u"))) \/
     House.posto_auto house = PyInt 0 \/
     digits_up_to 99 (House.posto_auto house)).
Proof.
  eexists. eexists. split; [reflexivity|].
  eapply (numeric_fields_in_range (default_config (lit "u"))
            (lit "piano 12 superficie 1250 m posto auto 2") (lit "l")).
  reflexivity.
Defined.

(** ** What [_get_data] logs, and the energy field *)

Section GetDataResults.

Variable self : Immobiliare.
Variable web : nat -> text -> response.

(** A call of [_get_data] that returns has had an answer or a timeout,
    and returns the record of the text it got. *)
Lemma _get_data_inv (sub_url : text) (st st' : state) (house : House.t) :
  _get_data self web sub_url st = (Ok house, st') ->
  web (clock st) sub_url <> Failure /\
  exists msgs,
    extract self (page_text (web (clock st) sub_url)) sub_url
      = Ok (house, msgs) /\
    st' = after_request st sub_url
            (timeout_note (web (clock st) sub_url) sub_url ++ msgs).
Proof.
  intros H. rewrite _get_data_cases in H.
  destruct (web (clock st) sub_url) as [page| |]; cbv beta iota zeta in H;
    [| |discriminate H]; (split; [discriminate|]).
  - destruct (extract self (page_text (Content page)) sub_url)
      as [[h msgs]|e]; [|discriminate H].
    inversion H; subst. exists msgs. auto.
  - destruct (extract self (page_text Timeout) sub_url)
      as [[h msgs]|e]; [|discriminate H].
    inversion H; subst. exists msgs. auto.
Qed.

Lemma log_after_request (st : state) (u : text) (msgs : list log_msg) :
  log (after_request st u msgs) = log st ++ msgs.
Proof.
  unfold log, after_request. cbn [logged].
  rewrite rev_app_distr, rev_involutive. reflexivity.
Qed.

Lemma extract_log_on_lowered (s sub_url : text) (house : House.t)
    (msgs : list log_msg) :
  extract self (lower s) sub_url = Ok (house, msgs) ->
  msgs = cost_log self (lower s) sub_url ++ energy_log (lower s) sub_url
         ++ car_log (lower s) sub_url.
Proof.
  intros Hex.
  destruct (extract_record _ _ _ _ _ Hex) as [cost [log_cost [Hc [_ ->]]]].
  f_equal; [|f_equal].
  - unfold cost_log.
    destruct (_extract_pattern (lower s) cost_patterns) as [g|] eqn:Eg.
    + pose proof (extract_cost_returned self _ _ _ _ _ Eg Hc) as Hlim.
      rewrite (extract_cost_matched self _ sub_url _ Eg Hlim) in Hc.
      destruct (parsed_price g <? min_house_cost self)%Z;
        inversion Hc; reflexivity.
    + rewrite (extract_cost_unmatched self _ sub_url Eg) in Hc.
      inversion Hc; reflexivity.
  - unfold extract_energy, energy_log.
    destruct (_extract_pattern (lower s) energy_patterns) as [e|] eqn:E.
    + rewrite (energy_rejected_on_lowered _ _ E).
      destruct (contains (lit "in attesa di certificazione") (lower s));
        reflexivity.
    + destruct (contains (lit "in attesa di certificazione") (lower s));
        reflexivity.
  - unfold extract_car, car_log.
    destruct (_extract_pattern (lower s) car_patterns);
      [|destruct (matches car_on_request_pattern (lower s))]; reflexivity.
Qed.

End GetDataResults.

(** X5.  A call of [_get_data] that returns has logged, in this order:
    the timeout if there was one; for the price, the rejection, or one of
    the two not-found messages, or nothing when the price is accepted;
    always one of the two energy messages; and the parking message when
    no count was found and the on-request phrase is there.  It has made
    one request, for its URL. *)
Theorem get_data_log
    (self : Immobiliare) (web : nat -> text -> response)
    (sub_url : text) (st st' : state) (house : House.t) :
  _get_data self web sub_url st = (Ok house, st') ->
  log st' = log st
            ++ timeout_note (web (clock st) sub_url) sub_url
            ++ cost_log self (page_text (web (clock st) sub_url)) sub_url
            ++ energy_log (page_text (web (clock st) sub_url)) sub_url
            ++ car_log (page_text (web (clock st) sub_url)) sub_url /\
  requests st' = requests st ++ [sub_url].
Proof.
  intros H. destruct (_get_data_inv self web _ _ _ _ H) as [_ [msgs [Hex ->]]].
  rewrite log_after_request. split.
  - unfold page_text in Hex |- *.
    rewrite (extract_log_on_lowered self _ _ _ _ Hex). reflexivity.
  - unfold requests, after_request. cbn [requested rev]. reflexivity.
Qed.

Lemma get_data_log_witness :
  log (snd (_get_data (default_config (lit "u"))
              (one_page (lit "Prezzo su richiesta. Possibilita box auto"))
              (lit "l") initial_state))
  = log initial_state
    ++ timeout_note (one_page (lit "Prezzo su richiesta. Possibilita box auto")
                              (clock initial_state) (lit "l")) (lit "l")
    ++ cost_log (default_config (lit "u"))
         (page_text (one_page (lit "Prezzo su richiesta. Possibilita box auto")
                              (clock initial_state) (lit "l"))) (lit "l")
    ++ energy_log
         (page_text (one_page (lit "Prezzo su richiesta. Possibilita box auto")
                              (clock initial_state) (lit "l"))) (lit "l")
    ++ car_log
         (page_text (one_page (lit "Prezzo su richiesta. Possibilita box auto")
                              (clock initial_state) (lit "l"))) (lit "l") /\
  requests (snd (_get_data (default_config (lit "u"))
                   (one_page (lit "Prezzo su richiesta. Possibilita box auto"))
                   (lit "l") initial_state))
  = requests initial_state ++ [lit "l"].
Proof.
  apply (get_data_log (default_config (lit "u"))
           (one_page (lit "Prezzo su richiesta. Possibilita box auto"))
           (lit "l") initial_state _
           (House.mk (PyFloat nan) (PyInt 0) PyNone (PyInt 0) false (lit "l")
                     (PyStr (lit "n/a")) (PyInt 0))).
  reflexivity.
Defined.

Example get_data_log_example :
  log (snd (_get_data (default_config (lit "u"))
              (one_page (lit "Prezzo su richiesta. Possibilita box auto"))
              (lit "l") initial_state))
  = [PriceOnRequest (lit "l"); CantGetEnergy (lit "l"); CarOnRequest (lit "l")].
Proof. reflexivity. Qed.

(** X6.  The energy field of every record [_get_data] returns is
    [energy_not_found], whatever the page says: the candidate is taken
    from the lowered text and compared with capital letters. *)
Theorem energy_field_is_always_not_found
    (self : Immobiliare) (web : nat -> text -> response)
    (sub_url : text) (st st' : state) (house : House.t) :
  _get_data self web sub_url st = (Ok house, st') ->
  House.energy house = PyStr (energy_not_found self).
Proof.
  intros H. destruct (_get_data_inv self web _ _ _ _ H) as [_ [msgs [Hex _]]].
  destruct (extract_record _ _ _ _ _ Hex) as [cost [log_cost [_ [-> _]]]].
  cbn [House.energy]. unfold page_text.
  apply energy_is_always_not_found.
Qed.

Lemma energy_field_is_always_not_found_witness :
  House.energy
    (House.mk (PyFloat nan) (PyInt 0) PyNone (PyInt 0) false (lit "l")
              (PyStr (lit "n/a")) (PyInt 0))
  = PyStr (energy_not_found (default_config (lit "u"))).
Proof.
  apply (energy_field_is_always_not_found (default_config (lit "u"))
           (one_page (lit "Classe energetica A4 EPgl 30 kWh"))
           (lit "l") initial_state
           (snd (_get_data (default_config (lit "u"))
                   (one_page (lit "Classe energetica A4 EPgl 30 kWh"))
                   (lit "l") initial_state))).
  reflexivity.
Defined.

(** ** The price per area is a number *)

Section FloatFacts.

Lemma shr_1_nonneg (mrs : shr_record) :
  (0 <= shr_m mrs)%Z -> (0 <= shr_m (shr_1 mrs))%Z.
Proof.
  destruct mrs as [m r s]. cbn [shr_m]. intros Hm.
  destruct m as [|[p|p|]|p]; cbn; lia.
Qed.

Lemma iter_shr_1_nonneg (p : positive) :
  forall mrs, (0 <= shr_m mrs)%Z -> (0 <= shr_m (SpecFloat.iter_pos shr_1 p mrs))%Z.
Proof.
  induction p as [p IH|p IH|]; intros mrs Hm; cbn [SpecFloat.iter_pos].
  - apply IH, IH, shr_1_nonneg, Hm.
  - apply IH, IH, Hm.
  - apply shr_1_nonneg, Hm.
Qed.

Lemma shr_fexp_nonneg (m e : Z) (l : location) :
  (0 <= m)%Z -> (0 <= shr_m (fst (shr_fexp prec emax m e l)))%Z.
Proof.
  intros Hm. unfold shr_fexp, shr.
  assert (H0 : (0 <= shr_m (shr_record_of_loc m l))%Z).
  { destruct l as [|[| |]]; exact Hm. }
  destruct (fexp prec emax (Zdigits2 m + e) - e)%Z; cbn [fst];
    [exact H0 | apply iter_shr_1_nonneg, H0 | exact H0].
Qed.

Lemma round_nearest_even_nonneg (m : Z) (l : location) :
  (0 <= m)%Z -> (0 <= round_nearest_even m l)%Z.
Proof.
  intros Hm. unfold round_nearest_even.
  destruct l as [|[| |]]; try destruct (Z.even m); lia.
Qed.

Lemma binary_round_aux_not_nan (s : bool) (m e : Z) (l : location) :
  (0 <= m)%Z -> binary_round_aux prec emax s m e l <> S754_nan.
Proof.
  intros Hm. unfold binary_round_aux.
  pose proof (shr_fexp_nonneg m e l Hm) as H1.
  destruct (shr_fexp prec emax m e l) as [mrs' e']. cbn [fst] in H1.
  pose proof (shr_fexp_nonneg _ e' loc_Exact
                (round_nearest_even_nonneg _ (loc_of_shr_record mrs') H1))
    as H2.
  destruct (shr_fexp prec emax
              (round_nearest_even (shr_m mrs') (loc_of_shr_record mrs'))
              e' loc_Exact) as [mrs'' e''].
  cbn [fst] in H2.
  destruct (shr_m mrs'') as [|p|p]; [discriminate | | lia].
  destruct (e'' <=? emax - prec)%Z; discriminate.
Qed.

Lemma nearest_quotient_not_nan (s : bool) (a b : Z) :
  (0 <= a)%Z -> (0 < b)%Z -> nearest_quotient s a b <> S754_nan.
Proof.
  intros Ha Hb. unfold nearest_quotient, SFdiv_core_binary.
  match goal with
  | |- context [Z.div_eucl ?m b] =>
      assert (Hm : (0 <= m)%Z);
      [| pose proof (Z.div_pos m b Hm Hb) as Hq; unfold Z.div in Hq;
         destruct (Z.div_eucl m b) as [q r] ]
  end.
  - match goal with
    | |- (0 <= match ?x with _ => _ end)%Z => destruct x
    end; [exact Ha | apply Z.shiftl_nonneg; exact Ha | lia].
  - apply binary_round_aux_not_nan. exact Hq.
Qed.

Lemma truediv_is_number (a b : Z) (f : float) :
  truediv a b = Ok f -> is_number f = true.
Proof.
  unfold truediv. destruct (b =? 0)%Z eqn:Hb; [discriminate|].
  destruct (a =? 0)%Z eqn:Ha; [intros H; inversion H; reflexivity|].
  apply Z.eqb_neq in Hb. apply Z.eqb_neq in Ha.
  pose proof (nearest_quotient_not_nan
                (xorb (a <? 0)%Z (b <? 0)%Z) (Z.abs a) (Z.abs b)
                ltac:(lia) ltac:(lia)) as Hn.
  destruct (nearest_quotient _ (Z.abs a) (Z.abs b));
    intros H; inversion H; subst; try reflexivity.
  destruct (Hn eq_refl).
Qed.

Lemma div_half_even_nonneg (n d : Z) :
  (0 <= n)%Z -> (0 < d)%Z -> (0 <= div_half_even n d)%Z.
Proof.
  intros Hn Hd. unfold div_half_even.
  pose proof (Z.div_pos n d Hn Hd).
  destruct (2 * (n mod d) ?= d)%Z; try destruct (Z.even (n / d)); lia.
Qed.

Lemma round1_is_number (x f : float) :
  is_number x = true -> round1 x = Ok f -> is_number f = true.
Proof.
  intros Hx. unfold round1.
  destruct x as [s| s | |s m e]; try discriminate.
  - intros H; inversion H; reflexivity.
  - match goal with
    | |- context [(?t =? 0)%Z] =>
        assert (Ht : (0 <= t)%Z); [| destruct (Z.eqb_spec t 0) as [_|Hne]]
    end.
    + destruct e as [|p|p].
      * apply Z.shiftl_nonneg. lia.
      * apply Z.shiftl_nonneg. lia.
      * apply div_half_even_nonneg; [lia|].
        rewrite Z.shiftl_1_l. apply Z.pow_pos_nonneg; lia.
    + intros H; inversion H; reflexivity.
    + match goal with
      | |- context [nearest_quotient s ?t 10] =>
          pose proof (nearest_quotient_not_nan s t 10 Ht ltac:(lia)) as Hn;
          destruct (nearest_quotient s t 10)
      end; intros H; inversion H; subst; try reflexivity.
      destruct (Hn eq_refl).
Qed.

End FloatFacts.

(** X7.  The price per area of every record is [invalid_price_per_area]
    or a float that is a number: never NaN, never an infinity, whatever
    the price and the configured values. *)
Theorem price_per_area_is_a_number (self : Immobiliare) (t sub_url : text)
    (house : House.t) (msgs : list log_msg) :
  extract self t sub_url = Ok (house, msgs) ->
  House.price_per_area house = PyInt (invalid_price_per_area self) \/
  exists f, House.price_per_area house = PyFloat f /\
            is_number f = true.
Proof.
  intros Hex.
  destruct (extract_record _ _ _ _ _ Hex) as [cost [log_cost [_ [-> _]]]].
  cbn [House.price_per_area]. unfold compute_price_per_area.
  destruct (int cost) as [c|]; [|left; reflexivity]. cbn [bind_r].
  destruct (int (extract_area self t)) as [a|]; [|left; reflexivity].
  cbn [bind_r].
  destruct (truediv c a) as [q|] eqn:Hq; [|left; reflexivity]. cbn [bind_r].
  destruct (round1 q) as [f|] eqn:Hf; [|left; reflexivity].
  right. exists f. split; [reflexivity|].
  exact (round1_is_number q f (truediv_is_number c a q Hq) Hf).
Qed.

Lemma price_per_area_is_a_number_witness :
  exists house msgs,
    extract (default_config (lit "u"))
            (euro :: lit " 200.000 superficie 3 m") (lit "l")
      = Ok (house, msgs) /\
    (House.price_per_area house
     = PyInt (invalid_price_per_area (default_config (lit "u"))) \/
     exists f, House.price_per_area house = PyFloat f /\
               is_number f = true).
Proof.
  eexists. eexists. split; [reflexivity|].
  eapply (price_per_area_is_a_number (default_config (lit "u"))
            (euro :: lit " 200.000 superficie 3 m") (lit "l")).
  reflexivity.
Defined.

(** ** The text [_get_text] returns *)

Section NormalizeFacts.

Arguments is_space : simpl never.

Lemma forallb_rev {A} (f : A -> bool) (l : list A) :
  forallb f l = true -> forallb f (rev l) = true.
Proof.
  intros H. apply forallb_forall. intros x Hx. apply in_rev in Hx.
  rewrite forallb_forall in H. exact (H x Hx).
Qed.

Lemma words_are_words (s : text) :
  forall cur,
    forallb (fun c => negb (is_space c)) cur = true ->
    Forall is_word (words s cur).
Proof.
  induction s as [|c s IH]; intros cur Hcur; cbn [words].
  - destruct cur as [|x cur]; [constructor|].
    constructor; [|constructor]. split.
    + intros H. apply (f_equal (@length char)) in H.
      rewrite length_rev in H. discriminate.
    + apply forallb_rev. exact Hcur.
  - destruct (is_space c) eqn:Hc.
    + destruct cur as [|x cur]; [apply IH; reflexivity|].
      constructor; [|apply IH; reflexivity]. split.
      * intros H. apply (f_equal (@length char)) in H.
        rewrite length_rev in H. discriminate.
      * apply forallb_rev. exact Hcur.
    + apply IH. cbn [forallb]. rewrite Hc. exact Hcur.
Qed.

(** The words keep every character that is not whitespace, in order. *)
Lemma concat_words (s : text) :
  forall cur,
    concat (words s cur)
    = rev cur ++ filter (fun c => negb (is_space c)) s.
Proof.
  induction s as [|c s IH]; intros cur; cbn [words filter].
  - destruct cur; cbn [concat]; rewrite ?app_nil_r; reflexivity.
  - destruct (is_space c) eqn:Hc; cbn [negb].
    + destruct cur as [|x cur].
      * rewrite IH. reflexivity.
      * cbn [concat]. rewrite IH. reflexivity.
    + rewrite IH. cbn [rev]. rewrite <- app_assoc. reflexivity.
Qed.

Lemma words_through_word (w s : text) :
  forall cur,
    forallb (fun c => negb (is_space c)) w = true ->
    words (w ++ s) cur = words s (rev w ++ cur).
Proof.
  induction w as [|c w IH]; intros cur Hw; [reflexivity|].
  cbn [forallb] in Hw. apply andb_prop in Hw. destruct Hw as [Hc Hw].
  cbn [app words]. apply negb_true_iff in Hc. rewrite Hc.
  rewrite IH by exact Hw. cbn [rev]. rewrite <- app_assoc. reflexivity.
Qed.

Lemma words_of_joined (ws : list text) :
  Forall is_word ws -> words (join_spaces ws) [] = ws.
Proof.
  induction 1 as [|w ws [Hne Hw] Hws IH]; [reflexivity|].
  assert (Hrev : exists x r, rev w ++ [] = x :: r).
  { rewrite app_nil_r. destruct (rev w) as [|x r] eqn:E; [|eauto].
    apply (f_equal (@length char)) in E. rewrite length_rev in E.
    destruct w; [destruct (Hne eq_refl) | discriminate]. }
  destruct Hrev as [x [r Hrev]].
  destruct ws as [|w2 ws].
  - cbn [join_spaces]. rewrite <- (app_nil_r w) at 1.
    rewrite words_through_word by exact Hw. cbn [words]. rewrite Hrev.
    rewrite <- Hrev, app_nil_r, rev_involutive. reflexivity.
  - cbn [join_spaces]. cbn [join_spaces] in IH.
    rewrite words_through_word by exact Hw. cbn [words].
    change (is_space 32%N) with true. cbv iota. rewrite Hrev.
    rewrite <- Hrev, app_nil_r, rev_involutive. rewrite IH. reflexivity.
Qed.

Lemma _get_text_inv (web : nat -> text -> response) (u : text)
    (st st' : state) (t : text) :
  _get_text web u st = (Ok t, st') ->
  t = normalize_spaces (doc_text (response_document (web (clock st) u))).
Proof.
  unfold _get_text, bind, _get_page.
  destruct (web (clock st) u); cbn; intros H; inversion H; reflexivity.
Qed.

End NormalizeFacts.

(** X8.  The text [_get_text] returns is made of words, non-empty and
    free of whitespace, with one space between them and none around them;
    the words hold every character of the page's text that is not
    whitespace, in order; normalising the text again changes nothing. *)
Theorem get_text_is_normalized
    (web : nat -> text -> response) (u : text) (st st' : state) (t : text) :
  _get_text web u st = (Ok t, st') ->
  exists ws,
    t = join_spaces ws /\
    Forall is_word ws /\
    concat ws = filter (fun c => negb (is_space c))
                       (doc_text (response_document (web (clock st) u))) /\
    normalize_spaces t = t.
Proof.
  intros H. apply _get_text_inv in H. subst t.
  set (raw := doc_text (response_document (web (clock st) u))).
  exists (words raw []).
  assert (Hw : Forall is_word (words raw []))
    by (apply words_are_words; reflexivity).
  split; [reflexivity|]. split; [exact Hw|]. split.
  - rewrite concat_words. reflexivity.
  - unfold normalize_spaces. rewrite (words_of_joined _ Hw). reflexivity.
Qed.

Lemma get_text_is_normalized_witness :
  exists ws,
    lit "Trilocale piano 2" = join_spaces ws /\
    Forall is_word ws /\
    concat ws = filter (fun c => negb (is_space c))
                  (doc_text (response_document
                     (one_page (9%N :: lit "Trilocale   piano" ++ [10%N; 160%N]
                                ++ lit "2 ")
                               (clock initial_state) (lit "l")))) /\
    normalize_spaces (lit "Trilocale piano 2") = lit "Trilocale piano 2".
Proof.
  apply (get_text_is_normalized
           (one_page (9%N :: lit "Trilocale   piano" ++ [10%N; 160%N]
                      ++ lit "2 "))
           (lit "l") initial_state
           (snd (_get_text
                   (one_page (9%N :: lit "Trilocale   piano" ++ [10%N; 160%N]
                              ++ lit "2 "))
                   (lit "l") initial_state))).
  reflexivity.
Defined.

(** ** The links [get_all_urls] keeps *)

Section LinkFacts.

Arguments is_digit : simpl never.

Lemma starts_with_spec (p s : text) :
  starts_with p s = true <-> exists r, s = p ++ r.
Proof.
  revert s. induction p as [|a p IH]; intros s; cbn [starts_with].
  - split; [intros _; exists s; reflexivity | reflexivity].
  - destruct s as [|b s].
    + split; [discriminate | intros [r Hr]; discriminate].
    + rewrite andb_true_iff, IH. unfold char_eqb. rewrite N.eqb_eq. split.
      * intros [-> [r ->]]. exists r. reflexivity.
      * intros [r Hr]. inversion Hr; subst. split; [reflexivity|].
        exists r. reflexivity.
Qed.

(** [needle in hay] is true exactly when [needle] occurs in [hay]. *)
Lemma contains_spec (needle hay : text) :
  contains needle hay = true <-> is_substring needle hay.
Proof.
  unfold is_substring. induction hay as [|c hay IH]; cbn [contains].
  - rewrite orb_false_r, starts_with_spec. split.
    + intros [r Hr]. exists [], r. exact Hr.
    + intros [before [after H]]. destruct before; [|discriminate].
      exists after. exact H.
  - rewrite orb_true_iff, starts_with_spec, IH. split.
    + intros [[r Hr] | [before [after H]]].
      * exists [], r. exact Hr.
      * exists (c :: before), after. rewrite H. reflexivity.
    + intros [[|b before] [after H]].
      * left. exists after. exact H.
      * right. inversion H; subst. exists before, after. reflexivity.
Qed.

Lemma search_items_at (p : list item) (s : text) (pieces : list text) :
  search_items p s = Some pieces ->
  exists before rest, s = before ++ rest /\ match_here p rest = Some pieces.
Proof.
  induction s as [|c s IH]; cbn [search_items].
  - destruct (match_here p []) as [r|] eqn:E; [|discriminate].
    intros H. inversion H; subst. exists [], []. auto.
  - destruct (match_here p (c :: s)) as [r|] eqn:E.
    + intros H. inversion H; subst. exists [], (c :: s). auto.
    + intros H. destruct (IH H) as [before [rest [Hs Hm]]].
      exists (c :: before), rest. rewrite Hs. auto.
Qed.

Lemma search_items_found (p : list item) (before rest : text) :
  match_here p rest <> None -> search_items p (before ++ rest) <> None.
Proof.
  intros Hm. induction before as [|c before IH].
  - cbn [app]. destruct rest as [|c rest]; cbn [search_items];
      destruct (match_here p _); [discriminate | congruence
                                 | discriminate | congruence].
  - cbn [app search_items].
    destruct (match_here p (c :: before ++ rest)); [discriminate | exact IH].
Qed.

Lemma at_end_spec (s : text) :
  at_end s = true <-> s = [] \/ s = [10%N].
Proof.
  destruct s as [|c [|c' s]]; cbn [at_end]; unfold char_eqb.
  - tauto.
  - rewrite N.eqb_eq. split.
    + intros ->. right. reflexivity.
    + intros [H | H]; inversion H. reflexivity.
  - split; [discriminate | intros [H | H]; discriminate].
Qed.

(** [\d+/$] finds something exactly in the strings that end with a digit
    and a slash. *)
Lemma listing_id_spec (l : text) :
  matches listing_id_pattern l = true <-> ends_with_id l.
Proof.
  unfold matches, ends_with_id. split.
  - destruct (search_items (items listing_id_pattern) l) as [pieces|] eqn:E;
      [intros _ | discriminate].
    apply search_items_at in E. destruct E as [before [rest [-> Hm]]].
    change (items listing_id_pattern)
      with [Q Digit 1 None; Q (Lit 47%N) 1 (Some 1); Dollar] in Hm.
    cbn [match_here] in Hm.
    match type of Hm with
    | context [rep Digit 1 None ?k rest] =>
        destruct (rep Digit 1 None k rest) as [[ds r1]|] eqn:E1;
        [|discriminate]
    end.
    apply rep_sound in E1. destruct E1 as [[Hds [Hlen _]] [s1 [-> Hm1]]].
    match type of Hm1 with
    | context [rep (Lit 47%N) 1 (Some 1) ?k s1] =>
        destruct (rep (Lit 47%N) 1 (Some 1) k s1) as [[sl r2]|] eqn:E2;
        [|discriminate]
    end.
    apply rep_sound in E2. destruct E2 as [[Hsl [Hl1 Hl2]] [s2 [-> Hm2]]].
    destruct (at_end s2) eqn:Hend; [|discriminate].
    apply at_end_spec in Hend.
    destruct sl as [|x [|y sl]]; cbn [length] in Hl1, Hl2; try lia.
    cbn [forallb in_cls] in Hsl. rewrite andb_true_r in Hsl.
    apply N.eqb_eq in Hsl. subst x.
    destruct (exists_last (l := ds)) as [init [d ->]].
    { intros ->. cbn in Hlen. lia. }
    change (forallb is_digit (init ++ [d]) = true) in Hds.
    rewrite forallb_app in Hds. apply andb_prop in Hds.
    destruct Hds as [_ Hd]. cbn [forallb] in Hd. rewrite andb_true_r in Hd.
    exists (before ++ init), d, s2. rewrite <- !app_assoc.
    split; [reflexivity|]. split; assumption.
  - intros [before [d [tail [-> [Hd Htail]]]]].
    assert (Hm : match_here (items listing_id_pattern) (d :: 47%N :: tail)
                 <> None).
    { destruct Htail as [-> | ->];
        cbn -[is_digit]; rewrite Hd; cbn; discriminate. }
    pose proof (search_items_found _ before _ Hm) as Hs.
    match goal with
    | |- match ?x with _ => _ end = true => destruct x eqn:E
    end; [reflexivity | destruct (Hs E)].
Qed.

(** X9.  A link is kept exactly when it contains "https", contains
    "annunci" and ends with a digit and a slash (a final newline apart);
    a missing or empty [href] is never kept. *)
Theorem is_listing_spec (l : text) :
  (is_listing (Some l) = true <-> looks_like_listing l) /\
  is_listing None = false /\ is_listing (Some []) = false.
Proof.
  split; [|split; reflexivity].
  unfold looks_like_listing.
  rewrite <- !contains_spec, <- listing_id_spec.
  destruct l as [|c l].
  - cbn [is_listing]. split; [discriminate|]. intros [H _]. discriminate.
  - cbn [is_listing]. rewrite !andb_true_iff. tauto.
Qed.

Lemma kept_link_looks_like_listing (l : text) :
  is_listing (Some l) = true -> looks_like_listing l.
Proof.
  unfold looks_like_listing.
  rewrite <- !contains_spec, <- listing_id_spec.
  destruct l as [|c l]; cbn [is_listing]; [discriminate|].
  rewrite !andb_true_iff. tauto.
Qed.

Lemma listing_links_pass (hrefs : list (option text)) :
  Forall (fun l => is_listing (Some l) = true) (listing_links hrefs).
Proof.
  induction hrefs as [|[l|] hrefs IH]; cbn [listing_links].
  - constructor.
  - destruct (is_listing (Some l)) eqn:E; [constructor|]; assumption.
  - destruct (is_listing None); assumption.
Qed.

Variable self : Immobiliare.
Variable web : nat -> text -> response.

Lemma browse_keeps (P : text -> Prop) (pages : list nat) :
  forall (found result : list text) (st st' : state),
    (forall hrefs, Forall P (listing_links hrefs)) ->
    Forall P found ->
    browse self web pages found st = (Ok result, st') ->
    Forall P result.
Proof.
  induction pages as [|i pages IH]; intros found result st st' HP Hf.
  - cbn. intros H. inversion H; subst. exact Hf.
  - cbn [browse]. unfold bind at 1. cbn [_say].
    unfold bind at 1. unfold _get_text at 1. unfold bind at 1.
    destruct (_get_page web (page_url self i) _) as [[page|e] s1];
      [|discriminate].
    cbn [ret].
    destruct (is_last_page (lower (normalize_spaces (doc_text page)))).
    + cbn. intros H. inversion H; subst. exact Hf.
    + unfold bind at 1.
      destruct (_get_page web (page_url self i) s1) as [[page2|e] s2];
        [|discriminate].
      apply IH; [exact HP|]. apply Forall_app. split; [exact Hf | apply HP].
Qed.

Lemma discover_keeps (P : text -> Prop) (st st' : state) (found : list text) :
  (forall hrefs, Forall P (listing_links hrefs)) ->
  discover self web st = (Ok found, st') ->
  Forall P found /\ urls_ st' = Some found.
Proof.
  intros HP. unfold discover. unfold bind at 1. cbn [_say].
  unfold bind at 1.
  destruct (_get_page web (url self) _) as [[page|e] s1]; [|discriminate].
  unfold bind at 1.
  destruct (browse_all_pages self).
  - destruct (browse self web page_range (listing_links (doc_hrefs page)) s1)
      as [[result|e] s2] eqn:Eb; [|discriminate].
    cbn. intros H. inversion H; subst. split; [|reflexivity].
    exact (browse_keeps P page_range _ _ _ _ HP (HP _) Eb).
  - cbn. intros H. inversion H; subst. split; [apply HP | reflexivity].
Qed.

End LinkFacts.

(** X10.  When [get_all_urls] returns, on any site, [urls_] holds a list
    in which every URL contains "https", contains "annunci" and ends with
    a digit and a slash. *)
Theorem discovered_urls_look_like_listings
    (self : Immobiliare) (web : nat -> text -> response) (st st' : state) :
  get_all_urls self web st = (Ok tt, st') ->
  exists found, urls_ st' = Some found /\ Forall looks_like_listing found.
Proof.
  unfold get_all_urls, bind.
  destruct (discover self web st) as [[found|e] s1] eqn:Ed; [|discriminate].
  cbn [ret]. intros H. inversion H; subst.
  exists found.
  destruct (discover_keeps self web looks_like_listing _ _ _
              ltac:(intros hrefs;
                    apply Forall_impl with (2 := listing_links_pass hrefs);
                    intros l Hl; apply kept_link_looks_like_listing;
                    exact Hl) Ed)
    as [Hall Hu].
  auto.
Qed.

Lemma discovered_urls_look_like_listings_witness :
  exists found,
    urls_ (snd (get_all_urls
                  (default_config (lit "https://www.immobiliare.it/search?c=1"))
                  (web_of_site
                     (three_pages
                        (default_config
                           (lit "https://www.immobiliare.it/search?c=1"))))
                  initial_state))
    = Some found /\ Forall looks_like_listing found.
Proof.
  apply (discovered_urls_look_like_listings
           (default_config (lit "https://www.immobiliare.it/search?c=1"))
           (web_of_site
              (three_pages
                 (default_config (lit "https://www.immobiliare.it/search?c=1"))))
           initial_state).
  vm_compute. reflexivity.
Defined.

(** ** Discovery of the first page only *)



(** ** The pool on any site *)

Section PoolRuns.

Variable self : Immobiliare.
Variable web : nat -> text -> response.
Variable s : schedule.

(** One call of [_get_data]: one request, nothing else touched. *)
Lemma _get_data_state (u : text) (st : state) :
  requested (snd (_get_data self web u st)) = u :: requested st /\
  urls_ (snd (_get_data self web u st)) = urls_ st /\
  df_ (snd (_get_data self web u st)) = df_ st.
Proof.
  rewrite _get_data_cases.
  destruct (web (clock st) u) as [page| |]; cbv beta iota zeta.
  - destruct (extract self (page_text (Content page)) u) as [[h m]|e];
      cbn; auto.
  - destruct (extract self (page_text Timeout) u) as [[h m]|e]; cbn; auto.
  - cbn. auto.
Qed.


(** The tasks that ran are the first of the list, and each made its
    request. *)
Lemma pool_run_state (us : list text) :
  forall (left : option nat) (i : nat) (st : state),
    requested (snd (pool_run s (_get_data self web) left i us st))
    = rev (firstn (length (fst (pool_run s (_get_data self web) left i us st)))
                  us)
      ++ requested st /\
    length (fst (pool_run s (_get_data self web) left i us st)) <= length us /\
    urls_ (snd (pool_run s (_get_data self web) left i us st)) = urls_ st /\
    df_ (snd (pool_run s (_get_data self web) left i us st)) = df_ st.
Proof.
  induction us as [|u us IH]; intros left i st.
  - destruct left as [[|k]|]; cbn; auto.
  - assert (Hrun : forall left',
      let st0 := {| clock := clock st + ticket s i; requested := requested st;
                    logged := logged st; urls_ := urls_ st; df_ := df_ st |} in
      let st2 := {| clock := clock st;
                    requested := requested (snd (_get_data self web u st0));
                    logged := logged (snd (_get_data self web u st0));
                    urls_ := urls_ (snd (_get_data self web u st0));
                    df_ := df_ (snd (_get_data self web u st0)) |} in
      let P := pool_run s (_get_data self web) left' (S i) us st2 in
      requested (snd P)
      = rev (firstn (S (length (fst P))) (u :: us)) ++ requested st /\
      S (length (fst P)) <= length (u :: us) /\
      urls_ (snd P) = urls_ st /\ df_ (snd P) = df_ st).
    { intros left' st0 st2 P.
      destruct (_get_data_state u st0) as [Hr [Hu Hd]].
      destruct (IH left' (S i) st2) as [Hr2 [Hlen [Hu2 Hd2]]].
      fold P in Hr2, Hlen, Hu2, Hd2.
      cbn [requested urls_ df_ st2] in Hr2, Hu2, Hd2.
      split; [|split; [|split]].
      - rewrite Hr2, Hr. cbn [firstn rev length]. rewrite <- app_assoc.
        reflexivity.
      - cbn [length]. lia.
      - rewrite Hu2, Hu. reflexivity.
      - rewrite Hd2, Hd. reflexivity. }
    destruct left as [[|k]|]; cbn [pool_run].
    + cbn. split; [reflexivity|]. split; [lia|]. auto.
    + specialize (Hrun (Some (Nat.pred (S k)))). cbv zeta in Hrun.
      destruct (_get_data self web u _) as [r st1]. cbn [fst snd] in Hrun.
      destruct (pool_run s (_get_data self web) _ (S i) us _) as [rs st3].
      exact Hrun.
    + destruct (_get_data self web u _) as [r st1] eqn:Eg.
      specialize (Hrun (match r with
                        | Ok _ => None
                        | Raise _ => Some (ahead s)
                        end)).
      cbv zeta in Hrun. rewrite Eg in Hrun. cbn [fst snd] in Hrun.
      destruct (pool_run s (_get_data self web) _ (S i) us _) as [rs st3].
      exact Hrun.
Qed.

(** When the results are all collected, every task ran. *)
Lemma pool_run_all_collected (us : list text) :
  forall (i : nat) (st : state) (rows : list House.t),
    collect (fst (pool_run s (_get_data self web) None i us st)) = Ok rows ->
    length (fst (pool_run s (_get_data self web) None i us st)) = length us.
Proof.
  induction us as [|u us IH]; intros i st rows; [reflexivity|].
  cbn [pool_run].
  destruct (_get_data self web u _) as [[h|e] st1].
  - specialize (IH (S i) {| clock := clock st; requested := requested st1;
                            logged := logged st1; urls_ := urls_ st1;
                            df_ := df_ st1 |}).
    destruct (pool_run s (_get_data self web) None (S i) us _) as [rs st3].
    cbn [fst collect length] in *.
    destruct (collect rs) as [rows'|e]; [|discriminate].
    intros _. rewrite (IH rows' eq_refl). reflexivity.
  - destruct (pool_run s (_get_data self web) _ (S i) us _) as [rs st3].
    cbn [fst collect]. discriminate.
Qed.


(** [find_all_houses] on an object whose [urls_] is set. *)
Lemma find_all_houses_cached (st : state) (us : list text) :
  urls_ st = Some us ->
  requested (snd (find_all_houses self web s st))
  = requested (snd (pool_run s (_get_data self web) None 0 us st)) /\
  urls_ (snd (find_all_houses self web s st)) = Some us /\
  match collect (fst (pool_run s (_get_data self web) None 0 us st)) with
  | Ok rows =>
      fst (find_all_houses self web s st) = Ok tt /\
      df_ (snd (find_all_houses self web s st)) = Some (pd_DataFrame rows)
  | Raise e =>
      fst (find_all_houses self web s st) = Raise e /\
      df_ (snd (find_all_houses self web s st)) = df_ st
  end.
Proof.
  intros Hu.
  destruct (pool_run_state us None 0 st) as [_ [_ [Hu2 Hd]]].
  pose proof (eq_refl (find_all_houses self web s st)) as Hrun.
  unfold find_all_houses at 2 in Hrun. unfold bind at 1 in Hrun.
  unfold discovered_urls in Hrun. rewrite Hu in Hrun.
  unfold bind at 1 in Hrun. unfold executor_map in Hrun.
  destruct (pool_run s (_get_data self web) None 0 us st) as [rs st'].
  cbn [fst snd] in *.
  destruct (collect rs) as [rows|e]; cbn in Hrun; rewrite Hrun; cbn;
    rewrite ?Hu2, ?Hd; auto.
Qed.

End PoolRuns.

(** X12.  On an object whose [urls_] is set, [find_all_houses] does not
    discover again: whatever the site answers, its requests are for the
    first entries of the list, one for each, and for nothing else; when
    the call returns they are for all the entries; and [urls_] is left
    as it was. *)
Theorem cached_urls_are_fetched_once
    (self : Immobiliare) (web : nat -> text -> response) (s : schedule)
    (st : state) (us : list text) :
  urls_ st = Some us ->
  exists new,
    requests (snd (find_all_houses self web s st)) = requests st ++ new /\
    (exists m, m <= length us /\ Permutation new (firstn m us)) /\
    (fst (find_all_houses self web s st) = Ok tt -> Permutation new us) /\
    urls_ (snd (find_all_houses self web s st)) = Some us.
Proof.
  intros Hu.
  destruct (find_all_houses_cached self web s st us Hu) as [Hr [Hu2 Hc]].
  destruct (pool_run_state self web s us None 0 st) as [Hr2 [Hlen _]].
  pose proof (pool_run_all_collected self web s us 0 st) as Hall.
  destruct (pool_run s (_get_data self web) None 0 us st) as [rs st'].
  cbn [fst snd] in *.
  exists (firstn (length rs) us).
  split; [|split; [|split; [|exact Hu2]]].
  - unfold requests. rewrite Hr, Hr2, rev_app_distr, rev_involutive.
    reflexivity.
  - exists (length rs). split; [exact Hlen | apply Permutation_refl].
  - intros Hok. destruct (collect rs) as [rows|e].
    + rewrite (Hall rows eq_refl), firstn_all. apply Permutation_refl.
    + destruct Hc as [Hc _]. rewrite Hc in Hok. discriminate Hok.
Qed.

Lemma cached_urls_are_fetched_once_witness :
  exists new,
    requests (snd (find_all_houses (default_config (lit "u"))
                     (site_without (lit "https://x/annunci/2/"))
                     (in_order 1)
                     (after_discovery [lit "https://x/annunci/1/";
                                       lit "https://x/annunci/2/";
                                       lit "https://x/annunci/3/";
                                       lit "https://x/annunci/4/"])))
    = requests (after_discovery [lit "https://x/annunci/1/";
                                 lit "https://x/annunci/2/";
                                 lit "https://x/annunci/3/";
                                 lit "https://x/annunci/4/"]) ++ new /\
    (exists m,
       m <= length [lit "https://x/annunci/1/"; lit "https://x/annunci/2/";
                    lit "https://x/annunci/3/"; lit "https://x/annunci/4/"] /\
       Permutation new
         (firstn m [lit "https://x/annunci/1/"; lit "https://x/annunci/2/";
                    lit "https://x/annunci/3/"; lit "https://x/annunci/4/"])) /\
    (fst (find_all_houses (default_config (lit "u"))
            (site_without (lit "https://x/annunci/2/"))
            (in_order 1)
            (after_discovery [lit "https://x/annunci/1/";
                              lit "https://x/annunci/2/";
                              lit "https://x/annunci/3/";
                              lit "https://x/annunci/4/"])) = Ok tt ->
     Permutation new
       [lit "https://x/annunci/1/"; lit "https://x/annunci/2/";
        lit "https://x/annunci/3/"; lit "https://x/annunci/4/"]) /\
    urls_ (snd (find_all_houses (default_config (lit "u"))
                  (site_without (lit "https://x/annunci/2/"))
                  (in_order 1)
                  (after_discovery [lit "https://x/annunci/1/";
                                    lit "https://x/annunci/2/";
                                    lit "https://x/annunci/3/";
                                    lit "https://x/annunci/4/"])))
    = Some [lit "https://x/annunci/1/"; lit "https://x/annunci/2/";
            lit "https://x/annunci/3/"; lit "https://x/annunci/4/"].
Proof.
  apply (cached_urls_are_fetched_once (default_config (lit "u"))
           (site_without (lit "https://x/annunci/2/")) (in_order 1)
           (after_discovery [lit "https://x/annunci/1/";
                             lit "https://x/annunci/2/";
                             lit "https://x/annunci/3/";
                             lit "https://x/annunci/4/"])).
  reflexivity.
Defined.

(** In that run the second request fails when the third listing is
    already taken: the fourth is never requested. *)
Example cancelled_listing_is_not_requested :
  requests (snd (find_all_houses (default_config (lit "u"))
                   (site_without (lit "https://x/annunci/2/"))
                   (in_order 1)
                   (after_discovery [lit "https://x/annunci/1/";
                                     lit "https://x/annunci/2/";
                                     lit "https://x/annunci/3/";
                                     lit "https://x/annunci/4/"])))
  = [lit "https://x/annunci/1/"; lit "https://x/annunci/2/";
     lit "https://x/annunci/3/"].
Proof. vm_compute. reflexivity. Qed.



(** ** Discovery up to the ceiling *)

Section CeilingFacts.

Variable self : Immobiliare.


Lemma page_address_inj (i j : nat) :
  page_address self i = page_address self j -> i = j.
Proof.
  unfold page_address.
  destruct (Nat.eqb_spec i 1) as [-> | Hi];
    destruct (Nat.eqb_spec j 1) as [-> | Hj]; intros H.
  - reflexivity.
  - symmetry in H. destruct (page_url_not_first self j H).
  - destruct (page_url_not_first self i H).
  - exact (page_url_inj self i j H).
Qed.

End CeilingFacts.



(** X15.  The 9999 addresses discovery can ask for, the base URL and
    [url&pag=i] for [i] from 2 to 9999, are all different: no page is
    asked for under the address of another. *)
Theorem page_addresses_are_distinct (self : Immobiliare) :
  NoDup (map (page_address self) (seq 1 last_page)) /\
  length (map (page_address self) (seq 1 last_page)) = last_page.
Proof.
  split.
  - apply NoDup_map_NoDup_ForallPairs; [|apply seq_NoDup].
    intros i j _ _ H. exact (page_address_inj self i j H).
  - rewrite length_map, length_seq. reflexivity.
Qed.

(** ** A site that answers the same to the same address *)

Section StaticRuns.

Variable self : Immobiliare.
Variable site : text -> response.



Lemma _get_page_static (u : text) (st : state) :
  fst (_get_page (web_of_site site) u st)
  = match site u with
    | Failure => Raise RequestException
    | r => Ok (response_document r)
    end.
Proof.
  unfold _get_page, web_of_site. destruct (site u); reflexivity.
Qed.

Lemma browse_static (pages : list nat) :
  forall (found : list text) (st : state),
    fst (browse self (web_of_site site) pages found st)
    = browse_site self site pages found.
Proof.
  induction pages as [|i pages IH]; intros found st; [reflexivity|].
  cbn [browse browse_site]. unfold bind at 1. cbn [_say].
  unfold bind at 1. unfold _get_text at 1. unfold bind at 1.
  match goal with
  | |- context [_get_page (web_of_site site) ?u ?s] =>
      pose proof (_get_page_static u s) as H1;
      destruct (_get_page (web_of_site site) u s) as [r1 s1]
  end.
  cbn [fst] in H1.
  destruct (site (page_url self i)) eqn:E; subst r1; cbn [ret fst];
    try reflexivity;
    unfold page_text; cbn [response_document];
    (match goal with
     | |- context [is_last_page ?t] => destruct (is_last_page t)
     end; [reflexivity|]);
    unfold bind at 1;
    (match goal with
     | |- context [_get_page (web_of_site site) ?u ?s] =>
         pose proof (_get_page_static u s) as H2;
         destruct (_get_page (web_of_site site) u s) as [r2 s2]
     end);
    cbn [fst] in H2; rewrite E in H2; subst r2; apply IH.
Qed.

Lemma discover_static (st : state) :
  fst (discover self (web_of_site site) st) = discover_site self site.
Proof.
  unfold discover, discover_site. unfold bind at 1. cbn [_say].
  unfold bind at 1.
  match goal with
  | |- context [_get_page (web_of_site site) ?u ?s] =>
      pose proof (_get_page_static u s) as H1;
      destruct (_get_page (web_of_site site) u s) as [r1 s1]
  end.
  cbn [fst] in H1.
  destruct (site (url self)) eqn:E; subst r1; try reflexivity;
    cbn [response_document]; unfold bind at 1;
    (destruct (browse_all_pages self);
     [ match goal with
       | |- context [browse self (web_of_site site) page_range ?f ?s] =>
           pose proof (browse_static page_range f s) as Hb;
           destruct (browse self (web_of_site site) page_range f s)
             as [[found|e] s2]
       end; cbn [fst] in Hb; rewrite <- Hb; reflexivity
     | reflexivity ]).
Qed.

End StaticRuns.



(** X17.  On such a site [get_all_urls] can be repeated: if it returned
    once, it returns from any other state of the object too, and leaves
    the same list in [urls_], whatever was there before. *)
Theorem discovery_is_repeatable
    (self : Immobiliare) (site : text -> response) (st1 st1' st2 : state) :
  get_all_urls self (web_of_site site) st1 = (Ok tt, st1') ->
  exists st2',
    get_all_urls self (web_of_site site) st2 = (Ok tt, st2') /\
    urls_ st2' = urls_ st1' /\
    exists found, urls_ st1' = Some found.
Proof.
  intros H1.
  assert (Hinv : forall st st',
            get_all_urls self (web_of_site site) st = (Ok tt, st') ->
            exists found, discover self (web_of_site site) st = (Ok found, st')).
  { intros st st'. unfold get_all_urls, bind.
    destruct (discover self (web_of_site site) st) as [[found|e] s];
      [|discriminate].
    cbn [ret]. intros H. inversion H; subst. eauto. }
  destruct (Hinv _ _ H1) as [found Hd1].
  destruct (discover_keeps self (web_of_site site) (fun _ => True) _ _ _
              ltac:(intros hrefs; apply Forall_forall; auto) Hd1)
    as [_ Hu1].
  pose proof (discover_static self site st1) as Hs1.
  pose proof (discover_static self site st2) as Hs2.
  rewrite Hd1 in Hs1. cbn [fst] in Hs1. rewrite <- Hs1 in Hs2.
  destruct (discover self (web_of_site site) st2) as [r2 st2'] eqn:Hd2.
  cbn [fst] in Hs2. subst r2.
  destruct (discover_keeps self (web_of_site site) (fun _ => True) _ _ _
              ltac:(intros hrefs; apply Forall_forall; auto) Hd2)
    as [_ Hu2].
  exists st2'. split; [exact (get_all_urls_of_discover _ _ _ _ _ Hd2)|].
  split; [rewrite Hu1, Hu2; reflexivity|]. exists found. exact Hu1.
Qed.

Lemma discovery_is_repeatable_witness :
  exists st2',
    get_all_urls (default_config (lit "https://www.immobiliare.it/search?c=1"))
      (web_of_site
         (three_pages
            (default_config (lit "https://www.immobiliare.it/search?c=1"))))
      (after_discovery [lit "https://old/annunci/5/"]) = (Ok tt, st2') /\
    urls_ st2'
    = urls_ (snd (get_all_urls
                    (default_config (lit "https://www.immobiliare.it/search?c=1"))
                    (web_of_site
                       (three_pages
                          (default_config
                             (lit "https://www.immobiliare.it/search?c=1"))))
                    initial_state)) /\
    exists found,
      urls_ (snd (get_all_urls
                    (default_config (lit "https://www.immobiliare.it/search?c=1"))
                    (web_of_site
                       (three_pages
                          (default_config
                             (lit "https://www.immobiliare.it/search?c=1"))))
                    initial_state)) = Some found.
Proof.
  apply (discovery_is_repeatable
           (default_config (lit "https://www.immobiliare.it/search?c=1"))
           (three_pages
              (default_config (lit "https://www.immobiliare.it/search?c=1")))
           initial_state).
  vm_compute. reflexivity.
Defined.

(** ** How a price is read *)

Section PriceReading.

Arguments is_digit : simpl never.

Lemma fold_digits_shift (d : text) :
  forall acc : Z,
    fold_left (fun a c => 10 * a + digit_value c)%Z d acc
    = (acc * 10 ^ Z.of_nat (length d) + int_of_digits d)%Z.
Proof.
  unfold int_of_digits.
  induction d as [|c d IH]; intros acc.
  - cbn [fold_left length]. change (10 ^ Z.of_nat 0)%Z with 1%Z. lia.
  - cbn [fold_left length].
    rewrite (IH (10 * acc + digit_value c)%Z),
            (IH (10 * 0 + digit_value c)%Z).
    rewrite Nat2Z.inj_succ, Z.pow_succ_r by lia. ring.
Qed.

Lemma int_of_digits_app (a b : text) :
  int_of_digits (a ++ b)
  = (int_of_digits a * 10 ^ Z.of_nat (length b) + int_of_digits b)%Z.
Proof.
  unfold int_of_digits at 1. rewrite fold_left_app.
  rewrite fold_digits_shift. reflexivity.
Qed.

Lemma digits_piece (piece : text) :
  piece_ok (plus Digit) piece -> digit_string piece.
Proof.
  intros [Hcls [Hlen _]]. split; [|exact Hcls].
  intros ->. cbn in Hlen. lia.
Qed.

Lemma dot_piece (piece : text) : piece_ok dot piece -> piece = [46%N].
Proof.
  intros [Hcls [Hlo Hhi]].
  destruct piece as [|x [|y piece]]; cbn [length] in Hlo, Hhi; try lia.
  cbn [forallb in_cls] in Hcls. rewrite andb_true_r in Hcls.
  apply N.eqb_eq in Hcls. subst x. reflexivity.
Qed.

End PriceReading.

(** X18.  A price is read by dropping its dots, wherever they stand: the
    group a cost pattern captures is a part of the text made of two or
    three non-empty runs of digits with a dot between them, and its number
    is that of the runs written one after the other (so "1.5" reads as
    15). *)
Theorem price_is_read_without_dots (t g : text) :
  _extract_pattern t cost_patterns = Some g ->
  is_substring g t /\
  exists d1 d2,
    digit_string d1 /\ digit_string d2 /\
    ((g = d1 ++ 46%N :: d2 /\
      parsed_price g
      = (int_of_digits d1 * 10 ^ Z.of_nat (length d2) + int_of_digits d2)%Z)
     \/
     exists d3,
       digit_string d3 /\
       g = d1 ++ 46%N :: d2 ++ 46%N :: d3 /\
       parsed_price g
       = ((int_of_digits d1 * 10 ^ Z.of_nat (length d2) + int_of_digits d2)
          * 10 ^ Z.of_nat (length d3) + int_of_digits d3)%Z).
Proof.
  intros H.
  apply _extract_pattern_sound in H. destruct H as [p [Hp Hs]].
  split; [exact (search_substring _ _ _ Hs)|].
  apply search_sound in Hs. destruct Hs as [[pieces [Hall ->]] _].
  destruct Hp as [<- | [<- | []]]; cbn [grp] in Hall.
  - inversion Hall as [|? p1 ? ? H1 Hall1]; subst.
    inversion Hall1 as [|? x1 ? ? Hx1 Hall2]; subst.
    inversion Hall2 as [|? p2 ? ? H2 Hall3]; subst.
    inversion Hall3 as [|? x2 ? ? Hx2 Hall4]; subst.
    inversion Hall4 as [|? p3 ? ? H3 Hall5]; subst.
    inversion Hall5; subst.
    apply digits_piece in H1, H2, H3.
    apply dot_piece in Hx1, Hx2. subst x1 x2.
    exists p1, p2. split; [exact H1|]. split; [exact H2|].
    right. exists p3. split; [exact H3|].
    cbn [concat app]. rewrite app_nil_r. split; [reflexivity|].
    unfold parsed_price.
    change (p1 ++ 46%N :: p2 ++ 46%N :: p3)
      with (p1 ++ [46%N] ++ p2 ++ [46%N] ++ p3).
    rewrite !remove_dots_app.
    rewrite (remove_dots_digits p1 (proj2 H1)),
            (remove_dots_digits p2 (proj2 H2)),
            (remove_dots_digits p3 (proj2 H3)).
    change (remove_dots [46%N]) with (@nil char). cbn [app].
    rewrite app_assoc, !int_of_digits_app. reflexivity.
  - inversion Hall as [|? p1 ? ? H1 Hall1]; subst.
    inversion Hall1 as [|? x1 ? ? Hx1 Hall2]; subst.
    inversion Hall2 as [|? p2 ? ? H2 Hall3]; subst.
    inversion Hall3; subst.
    apply digits_piece in H1, H2.
    apply dot_piece in Hx1. subst x1.
    exists p1, p2. split; [exact H1|]. split; [exact H2|].
    left. cbn [concat app]. rewrite app_nil_r. split; [reflexivity|].
    unfold parsed_price.
    change (p1 ++ 46%N :: p2) with (p1 ++ [46%N] ++ p2).
    rewrite !remove_dots_app.
    rewrite (remove_dots_digits p1 (proj2 H1)),
            (remove_dots_digits p2 (proj2 H2)).
    change (remove_dots [46%N]) with (@nil char). cbn [app].
    rewrite int_of_digits_app. reflexivity.
Qed.

Lemma price_is_read_without_dots_witness :
  is_substring (lit "1.5") (lit "da " ++ euro :: lit " 1.5 al mese") /\
  exists d1 d2,
    digit_string d1 /\ digit_string d2 /\
    ((lit "1.5" = d1 ++ 46%N :: d2 /\
      parsed_price (lit "1.5")
      = (int_of_digits d1 * 10 ^ Z.of_nat (length d2) + int_of_digits d2)%Z)
     \/
     exists d3,
       digit_string d3 /\
       lit "1.5" = d1 ++ 46%N :: d2 ++ 46%N :: d3 /\
       parsed_price (lit "1.5")
       = ((int_of_digits d1 * 10 ^ Z.of_nat (length d2) + int_of_digits d2)
          * 10 ^ Z.of_nat (length d3) + int_of_digits d3)%Z).
Proof.
  apply (price_is_read_without_dots
           (lit "da " ++ euro :: lit " 1.5 al mese") (lit "1.5")).
  reflexivity.
Defined.

Example price_1_5_reads_as_15 : parsed_price (lit "1.5") = 15%Z.
Proof. reflexivity. Qed.

(** ** A failure during discovery *)

Section DiscoveryFailure.

Variable self : Immobiliare.
Variable web : nat -> text -> response.







End DiscoveryFailure.



(** ** The two ways [_get_data] raises, and a timeout *)


(** X21.  A listing whose request times out gets a record: the timeout
    is caught and logged, the text is empty, the cost, area, energy and
    parking fields hold their configured values, the floor is [None],
    [ultimo] is false, and the price per area is that of the two
    configured values. *)
Theorem timed_out_listing_gets_a_record
    (self : Immobiliare) (web : nat -> text -> response)
    (sub_url : text) (st : state) :
  web (clock st) sub_url = Timeout ->
  exists st',
    _get_data self web sub_url st
    = (Ok (House.mk (PyFloat (price_not_found self))
                    (price_per_area_of_nothing self)
                    PyNone (PyInt (area_not_found self)) false sub_url
                    (PyStr (energy_not_found self))
                    (PyInt (car_not_found self))), st') /\
    log st' = log st ++ [TimeoutReaching sub_url; CantGetPrice sub_url;
                         CantGetEnergy sub_url] /\
    requests st' = requests st ++ [sub_url].
Proof.
  intros Ht.
  assert (Hrec : extract self (page_text Timeout) sub_url
                 = Ok (House.mk (PyFloat (price_not_found self))
                                (price_per_area_of_nothing self)
                                PyNone (PyInt (area_not_found self)) false
                                sub_url (PyStr (energy_not_found self))
                                (PyInt (car_not_found self)),
                       [CantGetPrice sub_url; CantGetEnergy sub_url])).
  { change (page_text Timeout) with (@nil char).
    unfold extract, price_per_area_of_nothing.
    cbn -[truediv round1 int_of_float compute_price_per_area].
    unfold compute_price_per_area. cbn [int bind_r].
    destruct (int_of_float (price_not_found self)); reflexivity. }
  rewrite _get_data_cases, Ht. cbv beta iota zeta. rewrite Hrec.
  eexists. split; [reflexivity|].
  rewrite log_after_request. split; [reflexivity|].
  unfold requests, after_request. cbn [requested rev]. reflexivity.
Qed.

Lemma timed_out_listing_gets_a_record_witness :
  exists st',
    _get_data (with_price_not_found (float_of_Z (-1))
                 (with_area_not_found (-1) (default_config (lit "u"))))
      silent_site (lit "l") initial_state
    = (Ok (House.mk
             (PyFloat (price_not_found
                (with_price_not_found (float_of_Z (-1))
                   (with_area_not_found (-1) (default_config (lit "u"))))))
             (price_per_area_of_nothing
                (with_price_not_found (float_of_Z (-1))
                   (with_area_not_found (-1) (default_config (lit "u")))))
             PyNone
             (PyInt (area_not_found
                (with_price_not_found (float_of_Z (-1))
                   (with_area_not_found (-1) (default_config (lit "u"))))))
             false (lit "l")
             (PyStr (energy_not_found
                (with_price_not_found (float_of_Z (-1))
                   (with_area_not_found (-1) (default_config (lit "u"))))))
             (PyInt (car_not_found
                (with_price_not_found (float_of_Z (-1))
                   (with_area_not_found (-1) (default_config (lit "u"))))))),
       st') /\
    log st' = log initial_state
              ++ [TimeoutReaching (lit "l"); CantGetPrice (lit "l");
                  CantGetEnergy (lit "l")] /\
    requests st' = requests initial_state ++ [lit "l"].
Proof.
  apply (timed_out_listing_gets_a_record
           (with_price_not_found (float_of_Z (-1))
              (with_area_not_found (-1) (default_config (lit "u"))))
           silent_site (lit "l") initial_state).
  reflexivity.
Defined.
